(** * Netdata metrics forwarder (src/netdata-forwarder.py)

    A shallow embedding of the collection and forwarding pipeline of
    [NetdataForwarder]: Python values returned by [response.json()], the
    parts of Python's [float()], [len], indexing and slicing that the
    normaliser uses, [parse_chart_response], [_get_chart_units],
    [get_chart_data], [get_mirrored_host_metrics], [send_to_proxy],
    [send_to_graphql_proxy], [run_once] and [main] in [--once] mode.
    HTTP traffic is modelled by oracles: a function answering each GET
    request and a function answering each POST. *)

From Stdlib Require Import String Ascii List ZArith Bool Lia.
Import ListNotations.

Open Scope string_scope.
Open Scope Z_scope.
Set Warnings "-register-all".

(** ** Python values *)

(** Python floats.  A finite double is represented by the decimal
    [m * 10^e] it was converted from (the rounding to the nearest double
    changes the value, not its finiteness); [PInf neg] is [+inf] / [-inf]. *)
Inductive pyfloat : Type :=
| PFin (m e : Z)
| PInf (neg : bool)
| PNaN.

Definition is_finite (f : pyfloat) : bool :=
  match f with PFin _ _ => true | _ => false end.

(** Values produced by Python's [json] module: [null], booleans, [int]s,
    [float]s (which include [NaN], [Infinity] and [-Infinity], accepted by
    [json.loads] by default), strings, lists and dicts. *)
Inductive json : Type :=
| JNull
| JBool (b : bool)
| JInt (z : Z)
| JFloat (f : pyfloat)
| JStr (s : string)
| JArr (l : list json)
| JObj (kvs : list (string * json)).

(** Python exceptions that the modelled code can raise. *)
Inductive exc : Type :=
| TypeError | ValueError | OverflowError | KeyError | IndexError
| AttributeError.

Inductive res (A : Type) : Type :=
| Ok (a : A)
| Err (e : exc).
Arguments Ok {A} a.
Arguments Err {A} e.

Definition bind {A B : Type} (r : res A) (k : A -> res B) : res B :=
  match r with Ok a => k a | Err e => Err e end.

Notation "'let*' x := r 'in' k" := (bind r (fun x => k))
  (at level 200, x name, r at level 100, k at level 200).

(** [dict.get(key, default)] on a dict with unique keys. *)
Fixpoint dict_get (kvs : list (string * json)) (k : string) : option json :=
  match kvs with
  | [] => None
  | (k', v) :: kvs' => if String.eqb k k' then Some v else dict_get kvs' k
  end.

Definition get_default (kvs : list (string * json)) (k : string) (d : json)
  : json :=
  match dict_get kvs k with Some v => v | None => d end.

(** Truthiness ([bool(x)]). *)
Definition truthy (v : json) : bool :=
  match v with
  | JNull => false
  | JBool b => b
  | JInt z => negb (z =? 0)
  | JFloat (PFin m _) => negb (m =? 0)
  | JFloat _ => true
  | JStr s => negb (String.eqb s "")
  | JArr l => match l with [] => false | _ => true end
  | JObj kvs => match kvs with [] => false | _ => true end
  end.

Definition chars (s : string) : list json :=
  map (fun c => JStr (String c EmptyString)) (list_ascii_of_string s).

(** [len(x)]. *)
Definition py_len (v : json) : res nat :=
  match v with
  | JStr s => Ok (String.length s)
  | JArr l => Ok (length l)
  | JObj kvs => Ok (length kvs)
  | _ => Err TypeError
  end.

(** [x[i]] for a non-negative integer index. Dict keys of JSON objects are
    strings, so an integer subscript of a dict is a [KeyError]. *)
Definition py_index (v : json) (i : nat) : res json :=
  match v with
  | JArr l => match nth_error l i with Some x => Ok x | None => Err IndexError end
  | JStr s => match nth_error (chars s) i with Some x => Ok x | None => Err IndexError end
  | JObj _ => Err KeyError
  | _ => Err TypeError
  end.

(** [x[1:]]. *)
Definition py_slice1 (v : json) : res json :=
  match v with
  | JArr l => Ok (JArr (tl l))
  | JStr s => Ok (JStr (substring 1 (String.length s - 1) s))
  | _ => Err TypeError
  end.

(** Iteration over a sequence ([for x in v]). *)
Definition py_iter (v : json) : res (list json) :=
  match v with
  | JArr l => Ok l
  | JStr s => Ok (chars s)
  | JObj kvs => Ok (map (fun kv => JStr (fst kv)) kvs)
  | _ => Err TypeError
  end.

(** ** Python's [float()] *)

(** The largest magnitude that still rounds to a finite double:
    values at or above [2^1024 - 2^970] round to infinity. *)
Definition overflow_bound : Z := 2 ^ 1024 - 2 ^ 970.

Definition dec_overflows (m e : Z) : bool :=
  if e >=? 0 then overflow_bound <=? Z.abs m * 10 ^ e
  else overflow_bound * 10 ^ (- e) <=? Z.abs m.

Definition round_dec (neg : bool) (m e : Z) : pyfloat :=
  if dec_overflows m e then PInf neg else PFin (if neg then - m else m) e.

Definition is_digit (c : ascii) : bool :=
  let n := nat_of_ascii c in (48 <=? n)%nat && (n <=? 57)%nat.

Definition digit_val (c : ascii) : nat := (nat_of_ascii c - 48)%nat.

Definition is_space (c : ascii) : bool :=
  let n := nat_of_ascii c in (n =? 32)%nat || ((9 <=? n)%nat && (n <=? 13)%nat).

Definition lower_char (c : ascii) : ascii :=
  let n := nat_of_ascii c in
  if (65 <=? n)%nat && (n <=? 90)%nat then ascii_of_nat (n + 32) else c.

Definition upper_char (c : ascii) : ascii :=
  let n := nat_of_ascii c in
  if (97 <=? n)%nat && (n <=? 122)%nat then ascii_of_nat (n - 32) else c.

Definition is_alpha (c : ascii) : bool :=
  let n := nat_of_ascii c in
  ((65 <=? n)%nat && (n <=? 90)%nat) || ((97 <=? n)%nat && (n <=? 122)%nat).

(** Digits after the first one of a digit part: [digit | "_" digit]. *)
Fixpoint digits_tail (cs : list ascii) : list nat * list ascii :=
  match cs with
  | [] => ([], [])
  | c :: cs' =>
      if is_digit c then
        let (ds, r) := digits_tail cs' in (digit_val c :: ds, r)
      else if Ascii.eqb c "_"%char then
        match cs' with
        | d :: cs'' =>
            if is_digit d then
              let (ds, r) := digits_tail cs'' in (digit_val d :: ds, r)
            else ([], cs)
        | [] => ([], cs)
        end
      else ([], cs)
  end.

Definition digitpart (cs : list ascii) : option (list nat * list ascii) :=
  match cs with
  | c :: cs' =>
      if is_digit c then let (ds, r) := digits_tail cs' in Some (digit_val c :: ds, r)
      else None
  | [] => None
  end.

Definition digits_value (ds : list nat) : Z :=
  fold_left (fun acc d => acc * 10 + Z.of_nat d) ds 0.

Definition take_sign (cs : list ascii) : bool * list ascii :=
  match cs with
  | c :: r =>
      if Ascii.eqb c "-"%char then (true, r)
      else if Ascii.eqb c "+"%char then (false, r) else (false, cs)
  | [] => (false, [])
  end.

(** [digitpart "." [digitpart] | "." digitpart | digitpart]. *)
Definition parse_mantissa (cs : list ascii)
  : option (list nat * list nat * list ascii) :=
  match digitpart cs with
  | Some (ip, r) =>
      match r with
      | c :: r' =>
          if Ascii.eqb c "."%char then
            match digitpart r' with
            | Some (fp, r'') => Some (ip, fp, r'')
            | None => Some (ip, [], r')
            end
          else Some (ip, [], r)
      | [] => Some (ip, [], [])
      end
  | None =>
      match cs with
      | c :: r' =>
          if Ascii.eqb c "."%char then
            match digitpart r' with
            | Some (fp, r'') => Some ([], fp, r'')
            | None => None
            end
          else None
      | [] => None
      end
  end.

(** Optional exponent [("e" | "E") [sign] digitpart]. *)
Definition parse_exponent (cs : list ascii) : option (Z * list ascii) :=
  match cs with
  | c :: r =>
      if Ascii.eqb c "e"%char || Ascii.eqb c "E"%char then
        let (neg, r1) := take_sign r in
        match digitpart r1 with
        | Some (ds, r2) =>
            Some (if neg then - digits_value ds else digits_value ds, r2)
        | None => None
        end
      else Some (0, cs)
  | [] => Some (0, [])
  end.

Definition parse_decimal (cs : list ascii) : option (Z * Z) :=
  match parse_mantissa cs with
  | Some (ip, fp, r) =>
      match parse_exponent r with
      | Some (ex, []) => Some (digits_value (ip ++ fp), ex - Z.of_nat (length fp))
      | _ => None
      end
  | None => None
  end.

Fixpoint drop_spaces (cs : list ascii) : list ascii :=
  match cs with
  | c :: r => if is_space c then drop_spaces r else cs
  | [] => []
  end.

(** [str.strip()] for ASCII whitespace. *)
Definition strip (cs : list ascii) : list ascii :=
  rev (drop_spaces (rev (drop_spaces cs))).

Definition lower_chars (cs : list ascii) : list ascii := map lower_char cs.

(** [float(s)] for a string [s]. *)
Definition py_float_str (s : string) : res pyfloat :=
  let (neg, r) := take_sign (strip (list_ascii_of_string s)) in
  let lr := string_of_list_ascii (lower_chars r) in
  if String.eqb lr "inf" || String.eqb lr "infinity" then Ok (PInf neg)
  else if String.eqb lr "nan" then Ok PNaN
  else match parse_decimal r with
       | Some (m, e) => Ok (round_dec neg m e)
       | None => Err ValueError
       end.

(** [float(v)]. *)
Definition py_float (v : json) : res pyfloat :=
  match v with
  | JNull => Err TypeError
  | JBool b => Ok (PFin (if b then 1 else 0) 0)
  | JInt z => if overflow_bound <=? Z.abs z then Err OverflowError else Ok (PFin z 0)
  | JFloat f => Ok f
  | JStr s => py_float_str s
  | JArr _ | JObj _ => Err TypeError
  end.

(** ** String helpers used by the normaliser *)

(** [sub in s] for strings. *)
Fixpoint py_in_chars (sub s : list ascii) : bool :=
  match s with
  | [] => match sub with [] => true | _ => false end
  | _ :: s' =>
      (if String.prefix (string_of_list_ascii sub) (string_of_list_ascii s)
       then true else false) || py_in_chars sub s'
  end.

Definition py_in (sub s : string) : bool :=
  py_in_chars (list_ascii_of_string sub) (list_ascii_of_string s).

(** [s.lower()] on ASCII strings. *)
Definition py_lower (s : string) : string :=
  string_of_list_ascii (lower_chars (list_ascii_of_string s)).

(** [s.replace('_', ' ')]. *)
Definition replace_underscores (s : string) : string :=
  string_of_list_ascii
    (map (fun c => if Ascii.eqb c "_"%char then " "%char else c)
         (list_ascii_of_string s)).

(** [s.title()]: a letter following a letter is lowercased, any other
    letter is uppercased. *)
Fixpoint title_chars (prev_cased : bool) (cs : list ascii) : list ascii :=
  match cs with
  | [] => []
  | c :: r =>
      if is_alpha c then
        (if prev_cased then lower_char c else upper_char c) :: title_chars true r
      else c :: title_chars false r
  end.

Definition py_title (s : string) : string :=
  string_of_list_ascii (title_chars false (list_ascii_of_string s)).

(** [chart_id.split('.')[0] if '.' in chart_id else ''] *)
Fixpoint before_dot (cs : list ascii) : list ascii :=
  match cs with
  | [] => []
  | c :: r => if Ascii.eqb c "."%char then [] else c :: before_dot r
  end.

Definition chart_family (chart_id : string) : string :=
  if py_in "." chart_id
  then string_of_list_ascii (before_dot (list_ascii_of_string chart_id))
  else "".

(** [NetdataForwarder._get_chart_units] *)
Definition _get_chart_units (chart_id : string) : string :=
  if py_in "cpu" (py_lower chart_id) then "percentage"
  else if py_in "disk_space" (py_lower chart_id) then "GB"
  else if py_in "memory" (py_lower chart_id) then "MB"
  else "".

(** ** [NetdataForwarder.parse_chart_response] *)

(** A metric is a Python dict; here an association list with unique keys. *)
Definition metric := list (string * json).

Definition AGG_KEY : string := "_aggregation_type".

Definition make_metric (timestamp : json) (hostname chart_id : string)
  (dimension : json) (value : pyfloat) (aggregation_type : string) : metric :=
  [("timestamp", timestamp);
   ("hostname", JStr hostname);
   ("chart_id", JStr chart_id);
   ("chart_name", JStr (py_title (replace_underscores chart_id)));
   ("id", dimension);
   ("value", JFloat value);
   ("units", JStr (_get_chart_units chart_id));
   ("family", JStr (chart_family chart_id));
   ("context", JStr chart_id);
   ("chart_type", JStr "line");
   (AGG_KEY, JStr aggregation_type)].

(** The body of the [try] for one present value: a [ValueError] or
    [TypeError] from [float()] skips the dimension, any other exception
    propagates out of [parse_chart_response]. *)
Definition value_metric (timestamp : json) (hostname chart_id : string)
  (dimension v : json) (aggregation_type : string) : res (list metric) :=
  match v with
  | JNull => Ok []
  | _ =>
      match py_float v with
      | Ok value =>
          Ok [make_metric timestamp hostname chart_id dimension value aggregation_type]
      | Err ValueError | Err TypeError => Ok []
      | Err e => Err e
      end
  end.

(** The loop [for i, dimension in enumerate(dimensions)] with the guard
    [i < len(values) and values[i] is not None]. *)
Fixpoint dimension_loop (i : nat) (dims : list json) (values : json)
  (timestamp : json) (hostname chart_id aggregation_type : string)
  : res (list metric) :=
  match dims with
  | [] => Ok []
  | dimension :: dims' =>
      let* nvalues := py_len values in
      let* here :=
        (if (i <? nvalues)%nat then
           let* v := py_index values i in
           value_metric timestamp hostname chart_id dimension v aggregation_type
         else Ok []) in
      let* rest := dimension_loop (S i) dims' values timestamp hostname chart_id
                     aggregation_type in
      Ok (here ++ rest)%list
  end.

Definition parse_chart_response (now : Z) (chart_data : json)
  (hostname chart_id aggregation_type : string) : res (list metric) :=
  match chart_data with
  | JObj kvs =>
      if negb (truthy chart_data) then Ok [] else
      let labels := get_default kvs "labels" (JArr []) in
      let data_points := get_default kvs "data" (JArr []) in
      if negb (truthy labels) || negb (truthy data_points) then Ok [] else
      let* nlabels := py_len labels in
      if (nlabels <? 2)%nat then Ok [] else
      let* dimensions := py_slice1 labels in
      let* ndata := py_len data_points in
      if negb (0 <? ndata)%nat then Ok [] else
      let* row := py_index data_points 0 in
      let* nrow := py_len row in
      if negb (1 <? nrow)%nat then Ok [] else
      let* timestamp := (if (0 <? nrow)%nat then py_index row 0 else Ok (JInt now)) in
      let* values := (if (1 <? nrow)%nat then py_slice1 row else Ok (JArr [])) in
      let* dims := py_iter dimensions in
      dimension_loop 0 dims values timestamp hostname chart_id aggregation_type
  | _ => Ok []
  end.

(** ** Configuration constants *)

Definition NETDATA_URL : string := "http://localhost:19999".
Definition PROXY_URL : string := "http://localhost:8080".
Definition GRAPHQL_PROXY_URL : string := "http://localhost:8090".
Definition CHARTS_TO_COLLECT : list string := ["system.cpu"; "disk_space./"].
Definition AGGREGATION_TYPES : list string := ["max"; "average"; "median"].
Definition TIME_WINDOW : Z := -60.

(** ** HTTP *)

(** A GET request: URL and query parameters (as [requests] encodes them). *)
Record request : Type := mk_request {
  req_url : string;
  req_params : list (string * string)
}.

(** What a request yields: a transport failure ([RequestException]) or a
    response with its status code and its body decoded by
    [response.json()] ([None] when the body is not valid JSON, which
    [requests] raises as a [RequestException]). *)
Inductive http_resp : Type :=
| Transport
| Resp (status : Z) (body : option json).

(** The metrics source, answering each GET request. *)
Definition server := request -> http_resp.

Definition data_params (chart_id aggregation_type : string) : list (string * string) :=
  [("chart", chart_id); ("group", aggregation_type); ("after", "-60");
   ("points", "1"); ("format", "json")].

(** The host-scoped data request built by [get_chart_data]. *)
Definition host_data_request (hostname chart_id aggregation_type
  base_netdata_url : string) : request :=
  mk_request (base_netdata_url ++ "/host/" ++ hostname ++ "/api/v1/data")
             (data_params chart_id aggregation_type).

(** [NetdataForwarder.get_chart_data]: the chart data and the requests
    issued. *)
Definition get_chart_data (srv : server) (hostname chart_id aggregation_type
  base_netdata_url : string) : option json * list request :=
  let rq := host_data_request hostname chart_id aggregation_type base_netdata_url in
  match srv rq with
  | Resp status_code (Some j) => if status_code =? 200 then (Some j, [rq]) else (None, [rq])
  | _ => (None, [rq])
  end.

(** ** [NetdataForwarder.get_mirrored_host_metrics] *)

(** One [(chart_id, aggregation_type)] step of the host loop; any exception
    from the fetch or the parse is caught ([except Exception]). *)
Definition collect_one (srv : server) (now : Z) (hostname chart_id
  aggregation_type : string) : list metric * list request :=
  let (chart_data, reqs) := get_chart_data srv hostname chart_id aggregation_type
                              NETDATA_URL in
  match chart_data with
  | Some cd =>
      if truthy cd then
        match parse_chart_response now cd hostname chart_id aggregation_type with
        | Ok ms => (ms, reqs)
        | Err _ => ([], reqs)
        end
      else ([], reqs)
  | None => ([], reqs)
  end.

Fixpoint collect_aggs (srv : server) (now : Z) (hostname chart_id : string)
  (aggs : list string) : list metric * list request :=
  match aggs with
  | [] => ([], [])
  | a :: aggs' =>
      let (ms, rs) := collect_one srv now hostname chart_id a in
      let (ms', rs') := collect_aggs srv now hostname chart_id aggs' in
      ((ms ++ ms')%list, (rs ++ rs')%list)
  end.

Fixpoint collect_charts (srv : server) (now : Z) (hostname : string)
  (charts : list string) : list metric * list request :=
  match charts with
  | [] => ([], [])
  | c :: charts' =>
      let (ms, rs) := collect_aggs srv now hostname c AGGREGATION_TYPES in
      let (ms', rs') := collect_charts srv now hostname charts' in
      ((ms ++ ms')%list, (rs ++ rs')%list)
  end.

Fixpoint collect_hosts (srv : server) (now : Z) (hosts : list string)
  : list metric * list request :=
  match hosts with
  | [] => ([], [])
  | h :: hosts' =>
      let (ms, rs) := collect_charts srv now h CHARTS_TO_COLLECT in
      let (ms', rs') := collect_hosts srv now hosts' in
      ((ms ++ ms')%list, (rs ++ rs')%list)
  end.

(** [', '.join(mirrored_hosts)] needs every element to be a string. *)
Fixpoint all_strings (l : list json) : res (list string) :=
  match l with
  | [] => Ok []
  | JStr s :: l' => let* r := all_strings l' in Ok (s :: r)
  | _ :: _ => Err TypeError
  end.

(** [info] is the result of [get_netdata_info()]: [None] when the info call
    failed. The result is the metrics (or the exception that escapes) and
    the data requests issued. *)
Definition get_mirrored_host_metrics (srv : server) (now : Z) (info : option json)
  : res (list metric) * list request :=
  match info with
  | None => (Ok [], [])
  | Some i =>
      if negb (truthy i) then (Ok [], []) else
      match i with
      | JObj kvs =>
          let mirrored_hosts := get_default kvs "mirrored_hosts" (JArr []) in
          if negb (truthy mirrored_hosts) then (Ok [], []) else
          match (let* _ := py_len mirrored_hosts in
                 let* hs := py_iter mirrored_hosts in
                 all_strings hs) with
          | Err e => (Err e, [])
          | Ok hosts =>
              let (ms, rs) := collect_hosts srv now hosts in (Ok ms, rs)
          end
      | _ => (Err AttributeError, [])
      end
  end.

(** ** Forwarding *)

(** The downstream proxies, answering each POST of a JSON array of metrics
    to an endpoint. *)
Definition poster := string -> list metric -> http_resp.

(** A POST issued: endpoint and body. *)
Definition post := (string * list metric)%type.

(** [raise_for_status()], [response.json()] and [result.get(...)] after a
    POST: a 4xx/5xx status or an undecodable body is a [RequestException]
    (the send reports [False]); a decoded body that is not a dict has no
    [.get] and raises [AttributeError]. *)
Definition interpret_post (r : http_resp) : res bool :=
  match r with
  | Transport => Ok false
  | Resp st body =>
      if (400 <=? st) && (st <? 600) then Ok false else
      match body with
      | None => Ok false
      | Some (JObj _) => Ok true
      | Some _ => Err AttributeError
      end
  end.

Definition proxy_endpoint (base aggregation_type : string) : string :=
  if String.eqb aggregation_type "max" then base ++ "/max"
  else if String.eqb aggregation_type "average" then base ++ "/avg"
  else if String.eqb aggregation_type "median" then base ++ "/median"
  else base.

(** [send_to_proxy] and [send_to_graphql_proxy] differ only in the base
    URL; [send_to_base] is their common body. *)
Definition send_to_base (base : string) (p : poster) (metrics : list metric)
  (aggregation_type : string) : res bool * list post :=
  match metrics with
  | [] => (Ok false, [])
  | _ =>
      let endpoint := proxy_endpoint base aggregation_type in
      (interpret_post (p endpoint metrics), [(endpoint, metrics)])
  end.

Definition send_to_proxy (p : poster) (metrics : list metric)
  (aggregation_type : string) : res bool * list post :=
  send_to_base PROXY_URL p metrics aggregation_type.

Definition send_to_graphql_proxy (p : poster) (metrics : list metric)
  (aggregation_type : string) : res bool * list post :=
  send_to_base GRAPHQL_PROXY_URL p metrics aggregation_type.

(** [m.get('_aggregation_type') == aggregation_type] *)
Definition has_aggregation (aggregation_type : string) (m : metric) : bool :=
  match dict_get m AGG_KEY with
  | Some (JStr s) => String.eqb s aggregation_type
  | _ => false
  end.

(** [{k: v for k, v in metric.items() if k != '_aggregation_type'}] *)
Definition clean_metric (m : metric) : metric :=
  filter (fun kv => negb (String.eqb (fst kv) AGG_KEY)) m.

(** Counters of [run_once]: metrics sent to ClickHouse, to GraphQL, and
    failed sends. *)
Record counters : Type := mk_counters {
  total_sent_clickhouse : nat;
  total_sent_graphql : nat;
  failed_sends : nat
}.

(** An exception raised by a send is caught in [run_once] and counted as a
    failed send. *)
Definition sent_ok (r : res bool) : bool :=
  match r with Ok b => b | Err _ => false end.

Fixpoint forward_aggs (p : poster) (all_host_data : list metric)
  (aggs : list string) (c : counters) : counters * list post :=
  match aggs with
  | [] => (c, [])
  | aggregation_type :: aggs' =>
      let type_metrics := filter (has_aggregation aggregation_type) all_host_data in
      match type_metrics with
      | [] => forward_aggs p all_host_data aggs' c
      | _ =>
          let clean_metrics := map clean_metric type_metrics in
          let n := length clean_metrics in
          let (r1, ps1) := send_to_proxy p clean_metrics aggregation_type in
          let c1 := if sent_ok r1
                    then mk_counters (total_sent_clickhouse c + n)
                           (total_sent_graphql c) (failed_sends c)
                    else mk_counters (total_sent_clickhouse c)
                           (total_sent_graphql c) (S (failed_sends c)) in
          let (r2, ps2) := send_to_graphql_proxy p clean_metrics aggregation_type in
          let c2 := if sent_ok r2
                    then mk_counters (total_sent_clickhouse c1)
                           (total_sent_graphql c1 + n) (failed_sends c1)
                    else mk_counters (total_sent_clickhouse c1)
                           (total_sent_graphql c1) (S (failed_sends c1)) in
          let (c3, ps3) := forward_aggs p all_host_data aggs' c2 in
          (c3, (ps1 ++ ps2 ++ ps3)%list)
      end
  end.

(** The forwarding half of [run_once], for the collected metrics. *)
Definition forward (p : poster) (all_host_data : list metric) : bool * list post :=
  match all_host_data with
  | [] => (false, [])
  | _ =>
      let (c, ps) := forward_aggs p all_host_data AGGREGATION_TYPES
                       (mk_counters 0 0 0) in
      ((0 <? total_sent_clickhouse c + total_sent_graphql c)%nat, ps)
  end.

(** [NetdataForwarder.run_once]: its result (or the exception escaping it)
    and the POSTs it issued. *)
Definition run_once (srv : server) (p : poster) (now : Z) (info : option json)
  : res bool * list post :=
  let (collected, _) := get_mirrored_host_metrics srv now info in
  match collected with
  | Err e => (Err e, [])
  | Ok all_host_data => let (b, ps) := forward p all_host_data in (Ok b, ps)
  end.

(** [main()] with [--once]: [sys.exit(0 if success else 1)]; an exception
    escaping [run_once] ends the interpreter with status 1. *)
Definition main_once (srv : server) (p : poster) (now : Z) (info : option json)
  : Z * list post :=
  let (r, ps) := run_once srv p now info in
  match r with
  | Ok true => (0, ps)
  | _ => (1, ps)
  end.

(** ** Concrete runs *)

Definition web_info : json :=
  JObj [("hostname", JStr "parent"); ("mirrored_hosts", JArr [JStr "web1"; JStr "web2"])].

Definition disk_payload : json :=
  JObj [("labels", JArr [JStr "time"; JStr "used"]);
        ("data", JArr [JArr [JInt 1700000000; JFloat (PFin 425 (-1))]])].

(** Only [disk_space./] with the [average] group has data. *)
Definition scenario_server : server :=
  fun rq =>
    if existsb (fun kv => String.eqb (fst kv) "chart" && String.eqb (snd kv) "disk_space./")
         (req_params rq)
       && existsb (fun kv => String.eqb (fst kv) "group" && String.eqb (snd kv) "average")
         (req_params rq)
    then Resp 200 (Some disk_payload) else Resp 404 None.

Definition ok_poster : poster :=
  fun _ _ => Resp 200 (Some (JObj [("status", JStr "ok")])).

(** ** Statements of the specification, for comparison with the code *)

(** The self-scoped fallback request the specification describes for a
    404 on the host-scoped path: the same query on [/api/v1/data] of the
    parent, with the host passed as the [host] query parameter. *)
Definition spec_self_scoped_request (hostname chart_id aggregation_type
  base_netdata_url : string) : request :=
  mk_request (base_netdata_url ++ "/api/v1/data")
             (data_params chart_id aggregation_type ++ [("host", hostname)]).

Fixpoint filter_map {A B : Type} (f : A -> option B) (l : list A) : list B :=
  match l with
  | [] => []
  | x :: l' => match f x with Some y => y :: filter_map f l' | None => filter_map f l' end
  end.

(** A (dimension, value) pair the specification counts as a record: the
    value is present (not [null]) and accepted by [float()]. *)
Definition coerced (dv : json * json) : option (json * pyfloat) :=
  match snd dv with
  | JNull => None
  | v => match py_float v with Ok f => Some (fst dv, f) | Err _ => None end
  end.

(** The POSTs for one aggregation kind as the routing description gives
    them: when it has records, its cleaned batch to the ClickHouse proxy
    and then to the GraphQL proxy. *)
Definition agg_posts (all_host_data : list metric) (a : string) : list post :=
  match filter (has_aggregation a) all_host_data with
  | [] => []
  | tm => [(proxy_endpoint PROXY_URL a, map clean_metric tm);
           (proxy_endpoint GRAPHQL_PROXY_URL a, map clean_metric tm)]
  end.

Definition expected_posts (all_host_data : list metric) : list post :=
  flat_map (agg_posts all_host_data) AGGREGATION_TYPES.

(** A POST counted as successful by [run_once]. *)
Definition post_succeeded (p : poster) (x : post) : bool :=
  sent_ok (interpret_post (p (fst x) (snd x))).

(** The metrics a cycle collected ([[]] when collection raised). *)
Definition collected_metrics (srv : server) (now : Z) (info : option json)
  : list metric :=
  match fst (get_mirrored_host_metrics srv now info) with
  | Ok ms => ms
  | Err _ => []
  end.

(** ** Other fetches of [NetdataForwarder] *)

Definition NETDATA_LOCAL_URL : string := "http://localhost:19998".

(** The request built by [get_chart_data_direct]. *)
Definition direct_data_request (chart_id aggregation_type netdata_url : string)
  : request :=
  mk_request (netdata_url ++ "/api/v1/data") (data_params chart_id aggregation_type).

(** [NetdataForwarder.get_chart_data_direct] *)
Definition get_chart_data_direct (srv : server) (chart_id aggregation_type
  netdata_url : string) : option json * list request :=
  let rq := direct_data_request chart_id aggregation_type netdata_url in
  match srv rq with
  | Resp status_code (Some j) => if status_code =? 200 then (Some j, [rq]) else (None, [rq])
  | _ => (None, [rq])
  end.

Definition local_hostname : string := "netdata-parent-test".

Definition collect_local_one (srv : server) (now : Z) (chart_id aggregation_type : string)
  : list metric * list request :=
  let (chart_data, reqs) := get_chart_data_direct srv chart_id aggregation_type
                              NETDATA_LOCAL_URL in
  match chart_data with
  | Some cd =>
      if truthy cd then
        match parse_chart_response now cd local_hostname chart_id aggregation_type with
        | Ok ms => (ms, reqs)
        | Err _ => ([], reqs)
        end
      else ([], reqs)
  | None => ([], reqs)
  end.

Fixpoint collect_local_aggs (srv : server) (now : Z) (chart_id : string)
  (aggs : list string) : list metric * list request :=
  match aggs with
  | [] => ([], [])
  | a :: aggs' =>
      let (ms, rs) := collect_local_one srv now chart_id a in
      let (ms', rs') := collect_local_aggs srv now chart_id aggs' in
      ((ms ++ ms')%list, (rs ++ rs')%list)
  end.

Fixpoint collect_local_charts (srv : server) (now : Z) (charts : list string)
  : list metric * list request :=
  match charts with
  | [] => ([], [])
  | c :: charts' =>
      let (ms, rs) := collect_local_aggs srv now c AGGREGATION_TYPES in
      let (ms', rs') := collect_local_charts srv now charts' in
      ((ms ++ ms')%list, (rs ++ rs')%list)
  end.

(** [NetdataForwarder.get_local_host_metrics]: every exception is caught
    per chart and aggregation. *)
Definition get_local_host_metrics (srv : server) (now : Z) : list metric * list request :=
  collect_local_charts srv now CHARTS_TO_COLLECT.

Definition info_request : request := mk_request (NETDATA_URL ++ "/api/v1/info") [].

(** [NetdataForwarder.get_netdata_info]: [raise_for_status()] raises for
    4xx and 5xx; an undecodable body raises a [RequestException] too. *)
Definition get_netdata_info (srv : server) : option json * list request :=
  match srv info_request with
  | Transport => (None, [info_request])
  | Resp st body =>
      if (400 <=? st) && (st <? 600) then (None, [info_request]) else (body, [info_request])
  end.

(** [NetdataForwarder.get_metrics_for_all_hosts]: the info call, then the
    mirrored hosts (the local container is disabled in the source). *)
Definition get_metrics_for_all_hosts (srv : server) (now : Z)
  : res (list metric) * list request :=
  let (info, r0) := get_netdata_info srv in
  let (ms, rs) := get_mirrored_host_metrics srv now info in
  (ms, (r0 ++ rs)%list).



(** ** Python's [int()] *)

(** [a / b] rounded to the nearest integer, ties to even ([a >= 0], [b > 0]). *)
Definition round_half_even (a b : Z) : Z :=
  let q := a / b in
  let r := a mod b in
  if b <? 2 * r then q + 1
  else if 2 * r <? b then q
  else if Z.even q then q else q + 1.

(** The truncation of the double nearest to the positive rational [n / d]:
    binary64 has 53-bit significands and a least exponent of [-1074]. *)
Definition trunc_nearest_double (n d : Z) : Z :=
  let l0 := Z.log2 n - Z.log2 d in
  let below := if l0 >=? 0 then n <? d * 2 ^ l0 else n * 2 ^ (- l0) <? d in
  let l := if below then l0 - 1 else l0 in
  let k := Z.max (l - 52) (-1074) in
  if k >=? 0 then round_half_even n (d * 2 ^ k) * 2 ^ k
  else round_half_even (n * 2 ^ (- k)) d / 2 ^ (- k).

(** [int(f)] for a float: truncation toward zero. *)
Definition py_int_float (f : pyfloat) : res Z :=
  match f with
  | PNaN => Err ValueError
  | PInf _ => Err OverflowError
  | PFin m e =>
      if m =? 0 then Ok 0 else
      let t := if e >=? 0 then trunc_nearest_double (Z.abs m * 10 ^ e) 1
               else trunc_nearest_double (Z.abs m) (10 ^ (- e)) in
      Ok (Z.sgn m * t)
  end.

(** [int(s)] for a string: optional whitespace and sign around a decimal
    digit part. *)
Definition py_int_str (s : string) : res Z :=
  let (neg, r) := take_sign (strip (list_ascii_of_string s)) in
  match digitpart r with
  | Some (ds, []) => Ok (if neg then - digits_value ds else digits_value ds)
  | _ => Err ValueError
  end.

(** [int(v)]. *)
Definition py_int (v : json) : res Z :=
  match v with
  | JNull | JArr _ | JObj _ => Err TypeError
  | JBool b => Ok (if b then 1 else 0)
  | JInt z => Ok z
  | JFloat f => py_int_float f
  | JStr s => py_int_str s
  end.

(** ** [NetdataForwarder.transform_metrics] *)

(** Concatenating the per-item results of a loop, stopping at the first
    exception. *)
Fixpoint res_concat_map {A : Type} (f : A -> res (list metric)) (l : list A)
  : res (list metric) :=
  match l with
  | [] => Ok []
  | x :: l' =>
      let* ms := f x in
      let* ms' := res_concat_map f l' in
      Ok (ms ++ ms')%list
  end.

Definition transform_dimension (metric_timestamp : Z) (actual_hostname : json)
  (chart_id : string) (chart_name units family context chart_type : json)
  (dim : string * json) : res (list metric) :=
  match snd dim with
  | JObj dimension_data =>
      match dict_get dimension_data "value" with
      | None | Some JNull => Ok []
      | Some v =>
          match py_float v with
          | Ok value =>
              Ok [[("timestamp", JInt metric_timestamp);
                   ("hostname", actual_hostname);
                   ("chart_id", JStr chart_id);
                   ("chart_name", chart_name);
                   ("id", JStr (fst dim));
                   ("value", JFloat value);
                   ("units", units);
                   ("family", family);
                   ("context", context);
                   ("chart_type", chart_type)]]
          | Err ValueError | Err TypeError => Ok []
          | Err e => Err e
          end
      end
  | _ => Ok []
  end.

Definition transform_chart (now : Z) (hostname : string) (chart : string * json)
  : res (list metric) :=
  let chart_id := fst chart in
  match snd chart with
  | JObj cd =>
      let chart_name := get_default cd "name" (JStr chart_id) in
      let chart_type := get_default cd "chart_type" (JStr "line") in
      let units := get_default cd "units" (JStr "") in
      let family := get_default cd "family" (JStr "") in
      let context := get_default cd "context" (JStr chart_id) in
      let* metric_timestamp :=
        (match dict_get cd "last_updated" with
         | Some t => if truthy t then py_int t else Ok now
         | None => Ok now
         end) in
      let actual_hostname := get_default cd "_hostname" (JStr hostname) in
      let dimensions := get_default cd "dimensions" (JObj []) in
      if negb (truthy dimensions) then Ok [] else
      match dimensions with
      | JObj dims =>
          res_concat_map (transform_dimension metric_timestamp actual_hostname chart_id
                            chart_name units family context chart_type) dims
      | _ => Err AttributeError
      end
  | _ => Ok []
  end.

Definition transform_host (now : Z) (host : string * json) : res (list metric) :=
  match snd host with
  | JObj host_data => res_concat_map (transform_chart now (fst host)) host_data
  | _ => Ok []
  end.

(** [now] stands for [int(time.time())]. *)
Definition transform_metrics (now : Z) (all_host_data : json) : res (list metric) :=
  if negb (truthy all_host_data) then Ok [] else
  match all_host_data with
  | JObj hosts => res_concat_map (transform_host now) hosts
  | _ => Err AttributeError
  end.

(** The keys of a record built by [transform_metrics], in order. *)
Definition transform_keys : list string :=
  ["timestamp"; "hostname"; "chart_id"; "chart_name"; "id"; "value"; "units";
   "family"; "context"; "chart_type"].

(** The number of dimension entries of the charts [transform_metrics]
    visits. *)
Definition dimension_entries (all_host_data : json) : nat :=
  match all_host_data with
  | JObj hosts =>
      list_sum (map (fun host =>
        match snd host with
        | JObj host_data =>
            list_sum (map (fun chart =>
              match snd chart with
              | JObj cd =>
                  match get_default cd "dimensions" (JObj []) with
                  | JObj dims => length dims
                  | _ => 0
                  end
              | _ => 0
              end)%nat host_data)
        | _ => 0
        end)%nat hosts)
  | _ => 0
  end.

(** ** Shapes and inputs used by the properties below *)

(** The shape of a record collected from one of the mirrored [hosts]. *)
Definition collected_shape (hosts : list string) (m : metric) : Prop :=
  exists h c a ts d f,
    In h hosts /\ In c CHARTS_TO_COLLECT /\ In a AGGREGATION_TYPES
    /\ m = make_metric ts h c d f a.

(** The six endpoints the forwarder posts to. *)
Definition proxy_endpoints : list string :=
  [PROXY_URL ++ "/max"; PROXY_URL ++ "/avg"; PROXY_URL ++ "/median";
   GRAPHQL_PROXY_URL ++ "/max"; GRAPHQL_PROXY_URL ++ "/avg";
   GRAPHQL_PROXY_URL ++ "/median"].

(** A record as [transform_metrics] builds it. *)
Definition transform_record (m : metric) : Prop :=
  map fst m = transform_keys /\ exists f, dict_get m "value" = Some (JFloat f).

(** The dimension entries of one chart, and of one host. *)
Definition chart_dimension_entries (chart : string * json) : nat :=
  match snd chart with
  | JObj cd =>
      match get_default cd "dimensions" (JObj []) with
      | JObj dims => length dims
      | _ => 0
      end
  | _ => 0
  end.

Definition host_dimension_entries (host : string * json) : nat :=
  match snd host with
  | JObj host_data => list_sum (map chart_dimension_entries host_data)
  | _ => 0
  end.

(** A host-keyed chart dump, as [transform_metrics] takes it. *)
Definition transform_sample : json :=
  JObj [("web1", JObj [("system.cpu",
    JObj [("last_updated", JInt 1700000000);
          ("dimensions", JObj [("user", JObj [("value", JFloat (PFin 15 (-1)))]);
                               ("idle", JObj [("value", JNull)])])])])].

(** A data answer whose first dimension overflows a double. *)
Definition overflow_payload : json :=
  JObj [("labels", JArr [JStr "time"; JStr "used"; JStr "avail"]);
        ("data", JArr [JArr [JInt 1700000000; JInt (2 ^ 1024); JFloat (PFin 5 0)]])].

Definition overflow_server : server := fun _ => Resp 200 (Some overflow_payload).

(** ** Sanity checks on concrete inputs *)

Example py_float_ex1 : py_float (JStr " 1_000.5e-1 ") = Ok (PFin 10005 (-2)).
Proof. reflexivity. Qed.

Example py_float_ex2 : py_float (JStr "-Infinity") = Ok (PInf true).
Proof. reflexivity. Qed.

Example py_float_ex3 : py_float (JStr "1_") = Err ValueError.
Proof. reflexivity. Qed.

Example py_float_ex4 : py_float (JStr ".5") = Ok (PFin 5 (-1)).
Proof. reflexivity. Qed.

Example parse_ex1 :
  parse_chart_response 0
    (JObj [("labels", JArr [JStr "time"; JStr "used"; JStr "avail"]);
           ("data", JArr [JArr [JInt 1700000000; JFloat (PFin 425 (-1)); JNull]])])
    "web1" "disk_space./" "average"
  = Ok [make_metric (JInt 1700000000) "web1" "disk_space./" (JStr "used")
          (PFin 425 (-1)) "average"].
Proof. reflexivity. Qed.

Example title_ex : py_title (replace_underscores "disk_space./") = "Disk Space./".
Proof. reflexivity. Qed.

Example scenario_one :
  main_once scenario_server ok_poster 0 (Some web_info)
  = (0, [("http://localhost:8080/avg",
          [clean_metric (make_metric (JInt 1700000000) "web1" "disk_space./"
                           (JStr "used") (PFin 425 (-1)) "average");
           clean_metric (make_metric (JInt 1700000000) "web2" "disk_space./"
                           (JStr "used") (PFin 425 (-1)) "average")]);
         ("http://localhost:8090/avg",
          [clean_metric (make_metric (JInt 1700000000) "web1" "disk_space./"
                           (JStr "used") (PFin 425 (-1)) "average");
           clean_metric (make_metric (JInt 1700000000) "web2" "disk_space./"
                           (JStr "used") (PFin 425 (-1)) "average")])]).
Proof. vm_compute. reflexivity. Qed.

Example py_int_ex1 : py_int (JFloat (PFin 9999999999999999999 (-19))) = Ok 1.
Proof. vm_compute. reflexivity. Qed.

Example py_int_ex2 : py_int (JFloat (PFin (-17000000005) (-1))) = Ok (-1700000000).
Proof. vm_compute. reflexivity. Qed.

Example py_int_ex3 : py_int (JStr " 1_700_000_000 ") = Ok 1700000000.
Proof. reflexivity. Qed.

Example transform_ex :
  transform_metrics 5
    (JObj [("web1", JObj [("system.cpu",
       JObj [("last_updated", JInt 1700000000);
             ("dimensions", JObj [("user", JObj [("value", JFloat (PFin 15 (-1)))]);
                                  ("idle", JObj [("value", JNull)])])])])])
  = Ok [[("timestamp", JInt 1700000000); ("hostname", JStr "web1");
         ("chart_id", JStr "system.cpu"); ("chart_name", JStr "system.cpu");
         ("id", JStr "user"); ("value", JFloat (PFin 15 (-1)));
         ("units", JStr ""); ("family", JStr ""); ("context", JStr "system.cpu");
         ("chart_type", JStr "line")]].
Proof. reflexivity. Qed.

(** * Claims *)

(** C4: a payload whose label list has fewer than two entries, or whose
    data rows are missing or empty, yields zero metric records. *)
Theorem parse_chart_response_no_records :
  forall now kvs hostname chart_id aggregation_type,
    (exists l, get_default kvs "labels" (JArr []) = JArr l /\ (length l < 2)%nat)
    \/ get_default kvs "data" (JArr []) = JArr [] ->
    parse_chart_response now (JObj kvs) hostname chart_id aggregation_type = Ok [].
Proof.
  intros now kvs hostname chart_id aggregation_type H.
  unfold parse_chart_response.
  destruct (truthy (JObj kvs)); simpl; [|reflexivity].
  destruct H as [[l [Hl Hlen]] | Hd].
  - rewrite Hl. destruct l as [|x l]; simpl; [reflexivity|].
    destruct (negb (truthy (get_default kvs "data" (JArr [])))); simpl; [reflexivity|].
    destruct l; simpl in *; [reflexivity | lia].
  - rewrite Hd. rewrite orb_true_r. reflexivity.
Qed.

Lemma parse_chart_response_no_records_witness :
  ((exists l, get_default [("labels", JArr [JStr "time"]); ("data", JArr [JArr [JInt 1]])]
                "labels" (JArr []) = JArr l /\ (length l < 2)%nat)
   \/ get_default [("labels", JArr [JStr "time"]); ("data", JArr [JArr [JInt 1]])]
        "data" (JArr []) = JArr [])
  /\ parse_chart_response 0
       (JObj [("labels", JArr [JStr "time"]); ("data", JArr [JArr [JInt 1]])])
       "web1" "system.cpu" "max" = Ok [].
Proof.
  split.
  - left. exists [JStr "time"]. split; [reflexivity | simpl; lia].
  - apply parse_chart_response_no_records.
    left. exists [JStr "time"]. split; [reflexivity | simpl; lia].
Defined.

(** C2 (as stated, refuted): a JSON [NaN] value (accepted by Python's
    [json] module) is coerced by [float()] and produces a record whose
    value is not finite. *)
Lemma parse_chart_response_nan_record :
  parse_chart_response 0
    (JObj [("labels", JArr [JStr "time"; JStr "used"]);
           ("data", JArr [JArr [JInt 1700000000; JFloat PNaN]])])
    "web1" "disk_space./" "average"
  = Ok [make_metric (JInt 1700000000) "web1" "disk_space./" (JStr "used") PNaN
          "average"]
  /\ is_finite PNaN = false.
Proof. split; reflexivity. Qed.

Lemma skipn_nth_error {A : Type} (l : list A) (i : nat) (v : A) :
  nth_error l i = Some v -> skipn i l = v :: skipn (S i) l.
Proof.
  revert i. induction l as [|x l IH]; intros [|i] H; simpl in *; try discriminate.
  - inversion H; reflexivity.
  - apply IH. exact H.
Qed.

Lemma filter_map_length {A B : Type} (f : A -> option B) (l : list A) :
  (length (filter_map f l) <= length l)%nat.
Proof.
  induction l as [|x l IH]; simpl; [lia|].
  destruct (f x); simpl; lia.
Qed.

Lemma json_eq_dec_null (v : json) : {v = JNull} + {v <> JNull}.
Proof. destruct v; (left; reflexivity) || (right; discriminate). Qed.

Lemma py_float_errors (v : json) (e : exc) :
  py_float v = Err e -> e = TypeError \/ e = ValueError \/ e = OverflowError.
Proof.
  destruct v; simpl; intro H; try (inversion H; auto; fail).
  - destruct (overflow_bound <=? Z.abs z); inversion H; auto.
  - unfold py_float_str in H.
    destruct (take_sign _) as [neg r].
    destruct (_ || _); [discriminate|].
    destruct (String.eqb _ "nan"); [discriminate|].
    destruct (parse_decimal r) as [[m ex]|]; inversion H; auto.
Qed.

Lemma value_metric_coerced :
  forall timestamp hostname chart_id d v aggregation_type,
    py_float v <> Err OverflowError ->
    value_metric timestamp hostname chart_id d v aggregation_type
    = Ok (map (fun df => make_metric timestamp hostname chart_id (fst df) (snd df)
                           aggregation_type)
              (filter_map coerced [(d, v)])).
Proof.
  intros ts h c d v a Hno.
  destruct (json_eq_dec_null v) as [-> | Hnn]; [reflexivity|].
  assert (E1 : value_metric ts h c d v a
               = match py_float v with
                 | Ok value => Ok [make_metric ts h c d value a]
                 | Err ValueError | Err TypeError => Ok []
                 | Err e => Err e
                 end) by (destruct v; [congruence | reflexivity ..]).
  assert (E2 : coerced (d, v)
               = match py_float v with Ok f => Some (d, f) | Err _ => None end)
    by (destruct v; [congruence | reflexivity ..]).
  rewrite E1. simpl filter_map. rewrite E2.
  destruct (py_float v) as [f | e] eqn:Ef; [reflexivity|].
  destruct (py_float_errors v e Ef) as [-> | [-> | ->]]; [reflexivity | reflexivity | congruence].
Qed.

Lemma dimension_loop_spec :
  forall dims i vs timestamp hostname chart_id aggregation_type,
    Forall (fun v => py_float v <> Err OverflowError)
      (firstn (length dims) (skipn i vs)) ->
    dimension_loop i dims (JArr vs) timestamp hostname chart_id aggregation_type
    = Ok (map (fun df => make_metric timestamp hostname chart_id (fst df) (snd df)
                           aggregation_type)
              (filter_map coerced (combine dims (skipn i vs)))).
Proof.
  induction dims as [|d dims IH]; intros i vs ts h c a Hno; [reflexivity|].
  cbn [dimension_loop py_len bind].
  destruct (Nat.ltb_spec i (length vs)) as [Hlt | Hge].
  - assert (Hn : exists v, nth_error vs i = Some v).
    { destruct (nth_error vs i) eqn:E; [eauto|].
      apply nth_error_None in E. lia. }
    destruct Hn as [v Hv].
    pose proof (skipn_nth_error vs i v Hv) as Hs.
    rewrite Hs in Hno |- *.
    cbn [py_index]. rewrite Hv. cbn [bind].
    inversion Hno as [|? ? Hv_ok Hrest]; subst.
    rewrite (value_metric_coerced ts h c d v a Hv_ok). cbn [bind].
    rewrite (IH (S i) vs ts h c a Hrest). cbn [bind].
    f_equal. cbn [combine]. simpl filter_map.
    destruct (coerced (d, v)); reflexivity.
  - rewrite (skipn_all2 vs Hge). cbn [combine bind].
    rewrite IH.
    + rewrite skipn_all2 by lia. destruct dims; reflexivity.
    + rewrite skipn_all2 by lia. destruct (length dims); constructor.
Qed.

(** C2 (amended): for a payload with a label list [time :: dims] and a
    first data row [ts :: vals] in which no value is an integer too large
    for [float()] (the [OverflowError] it raises escapes the normaliser),
    the normaliser emits, in dimension order, exactly one record per
    dimension whose value is present, not [null] and accepted by
    [float()], with [float(v)] as its value (which is [NaN] or infinite
    for inputs such as [NaN], [Infinity], ["nan"] or ["1e999"]); null
    values and values [float()] rejects are dropped; and there are at
    most as many records as dimensions. *)
Theorem parse_chart_response_records :
  forall now kvs hostname chart_id aggregation_type l0 dims ts vals rows,
    get_default kvs "labels" (JArr []) = JArr (l0 :: dims) ->
    get_default kvs "data" (JArr []) = JArr (JArr (ts :: vals) :: rows) ->
    Forall (fun v => py_float v <> Err OverflowError) (firstn (length dims) vals) ->
    exists ms,
      parse_chart_response now (JObj kvs) hostname chart_id aggregation_type = Ok ms
      /\ ms = map (fun df => make_metric ts hostname chart_id (fst df) (snd df)
                               aggregation_type)
                  (filter_map coerced (combine dims vals))
      /\ (length ms <= length dims)%nat.
Proof.
  intros now kvs hostname chart_id aggregation_type l0 dims ts vals rows Hl Hd Hno.
  assert (Hkvs : kvs <> []) by (intro E; subst; discriminate Hl).
  set (ms := map _ _).
  exists ms. split; [|split; [reflexivity|]].
  - unfold parse_chart_response.
    replace (truthy (JObj kvs)) with true by (destruct kvs; [congruence|reflexivity]).
    rewrite Hl, Hd. simpl negb. simpl orb. cbv iota.
    destruct dims as [|d dims'].
    + reflexivity.
    + simpl py_len. cbv [bind]. simpl Nat.ltb. cbv iota.
      simpl py_slice1. simpl py_index. simpl py_len. simpl tl.
      destruct vals as [|v vals'].
      * reflexivity.
      * simpl Nat.ltb. cbv iota. simpl py_index. simpl py_slice1. simpl py_iter.
        simpl tl.
        pose proof (dimension_loop_spec (d :: dims') 0 (v :: vals') ts hostname
                      chart_id aggregation_type Hno) as E.
        exact E.
  - subst ms. rewrite length_map.
    eapply Nat.le_trans; [apply filter_map_length|].
    rewrite length_combine. lia.
Qed.

Lemma parse_chart_response_records_witness :
  exists ms,
    parse_chart_response 0 disk_payload "web1" "disk_space./" "average" = Ok ms
    /\ ms = map (fun df => make_metric (JInt 1700000000) "web1" "disk_space./"
                             (fst df) (snd df) "average")
                (filter_map coerced (combine [JStr "used"] [JFloat (PFin 425 (-1))]))
    /\ (length ms <= length [JStr "used"])%nat.
Proof.
  apply (parse_chart_response_records 0
           [("labels", JArr [JStr "time"; JStr "used"]);
            ("data", JArr [JArr [JInt 1700000000; JFloat (PFin 425 (-1))]])]
           "web1" "disk_space./" "average" (JStr "time") [JStr "used"]
           (JInt 1700000000) [JFloat (PFin 425 (-1))] []).
  - reflexivity.
  - reflexivity.
  - simpl. constructor; [discriminate | constructor].
Defined.

(** C1 (as stated, refuted): the host-scoped data fetch answered with 404
    issues no further request; the self-scoped request with [host] as a
    query parameter, which would have succeeded, is never sent and the
    fetch yields no data. *)
Lemma get_chart_data_no_fallback :
  let srv : server :=
    fun rq => if String.eqb (req_url rq) "http://localhost:19999/api/v1/data"
              then Resp 200 (Some disk_payload) else Resp 404 None in
  srv (host_data_request "web1" "disk_space./" "average" NETDATA_URL) = Resp 404 None
  /\ srv (spec_self_scoped_request "web1" "disk_space./" "average" NETDATA_URL)
     = Resp 200 (Some disk_payload)
  /\ get_chart_data srv "web1" "disk_space./" "average" NETDATA_URL
     = (None, [host_data_request "web1" "disk_space./" "average" NETDATA_URL])
  /\ ~ In (spec_self_scoped_request "web1" "disk_space./" "average" NETDATA_URL)
         (snd (get_chart_data srv "web1" "disk_space./" "average" NETDATA_URL)).
Proof.
  intro srv. split; [reflexivity|]. split; [reflexivity|]. split; [reflexivity|].
  simpl. intros [H | []]. discriminate H.
Qed.

(** C1 (amended): any response other than a 200 on the host-scoped data
    request (a 404 included), and a transport failure, makes the fetch
    yield no data after that single request; no fallback is attempted. *)
Theorem get_chart_data_non_200 :
  forall srv hostname chart_id aggregation_type base_netdata_url,
    (forall body, srv (host_data_request hostname chart_id aggregation_type
                         base_netdata_url) <> Resp 200 (Some body)) ->
    get_chart_data srv hostname chart_id aggregation_type base_netdata_url
    = (None, [host_data_request hostname chart_id aggregation_type base_netdata_url]).
Proof.
  intros srv h c a b H. unfold get_chart_data.
  destruct (srv (host_data_request h c a b)) as [|st [body|]] eqn:E; try reflexivity.
  destruct (Z.eqb_spec st 200) as [-> | Hne]; [|reflexivity].
  exfalso. exact (H body eq_refl).
Qed.

Lemma get_chart_data_non_200_witness :
  (forall body, (fun _ : request => Resp 404 None)
                  (host_data_request "web1" "system.cpu" "max" NETDATA_URL)
                <> Resp 200 (Some body))
  /\ get_chart_data (fun _ => Resp 404 None) "web1" "system.cpu" "max" NETDATA_URL
     = (None, [host_data_request "web1" "system.cpu" "max" NETDATA_URL]).
Proof.
  split.
  - intros body. discriminate.
  - apply get_chart_data_non_200. intros body. discriminate.
Defined.

(** C5 (as stated, refuted): [send_to_proxy] with the unrecognised kind
    ["sum"] posts the batch to the proxy's base URL and reports success. *)
Lemma send_to_proxy_unrecognised_is_sent :
  let m := clean_metric (make_metric (JInt 1700000000) "web1" "disk_space./"
                           (JStr "used") (PFin 425 (-1)) "sum") in
  send_to_proxy ok_poster [m] "sum" = (Ok true, [("http://localhost:8080", [m])]).
Proof. reflexivity. Qed.

(** C5 (amended): for an aggregation kind other than [max], [average] and
    [median], [send_to_proxy] posts a non-empty batch once, to the proxy's
    base URL (its default endpoint), and reports the outcome as for any
    other kind; it is not a per-batch failure. *)
Theorem send_to_proxy_default_endpoint :
  forall p metrics aggregation_type,
    ~ In aggregation_type AGGREGATION_TYPES ->
    metrics <> [] ->
    send_to_proxy p metrics aggregation_type
    = (interpret_post (p PROXY_URL metrics), [(PROXY_URL, metrics)]).
Proof.
  intros p metrics a Hn Hm.
  unfold send_to_proxy, send_to_base, proxy_endpoint.
  destruct metrics as [|m ms]; [congruence|].
  destruct (String.eqb_spec a "max") as [-> | _]; [exfalso; apply Hn; simpl; auto|].
  destruct (String.eqb_spec a "average") as [-> | _]; [exfalso; apply Hn; simpl; auto|].
  destruct (String.eqb_spec a "median") as [-> | _]; [exfalso; apply Hn; simpl; auto|].
  reflexivity.
Qed.

Lemma send_to_proxy_default_endpoint_witness :
  (~ In "sum" AGGREGATION_TYPES) /\ [disk_payload] <> [] /\
  send_to_proxy ok_poster [[("value", disk_payload)]] "sum"
  = (interpret_post (ok_poster PROXY_URL [[("value", disk_payload)]]),
     [(PROXY_URL, [[("value", disk_payload)]])]).
Proof.
  split; [|split].
  - simpl. intros [H | [H | [H | []]]]; discriminate H.
  - discriminate.
  - apply send_to_proxy_default_endpoint.
    + simpl. intros [H | [H | [H | []]]]; discriminate H.
    + discriminate.
Defined.

(** C6 (as stated, refuted): when the info call reports an empty
    mirrored-hosts list, no target host is used at all: no data request is
    issued, no metric is collected, and the cycle reports failure; there
    is no synthetic "self" target. *)
Lemma no_mirrored_hosts_no_target :
  let info := JObj [("hostname", JStr "parent"); ("mirrored_hosts", JArr [])] in
  get_mirrored_host_metrics scenario_server 0 (Some info) = (Ok [], [])
  /\ run_once scenario_server ok_poster 0 (Some info) = (Ok false, []).
Proof. split; reflexivity. Qed.

(** C6 (amended): when the info call succeeds but its [mirrored_hosts]
    entry is missing or empty, the host loop is skipped: no data request is
    issued, no metric is collected, and [run_once] reports failure without
    posting anything. *)
Theorem no_mirrored_hosts_empty_cycle :
  forall srv p now kvs,
    kvs <> [] ->
    truthy (get_default kvs "mirrored_hosts" (JArr [])) = false ->
    get_mirrored_host_metrics srv now (Some (JObj kvs)) = (Ok [], [])
    /\ run_once srv p now (Some (JObj kvs)) = (Ok false, []).
Proof.
  intros srv p now kvs Hk Ht.
  assert (E : get_mirrored_host_metrics srv now (Some (JObj kvs)) = (Ok [], [])).
  { unfold get_mirrored_host_metrics.
    replace (truthy (JObj kvs)) with true by (destruct kvs; [congruence | reflexivity]).
    simpl negb. cbv iota. rewrite Ht. reflexivity. }
  split; [exact E|].
  unfold run_once. rewrite E. reflexivity.
Qed.

Lemma no_mirrored_hosts_empty_cycle_witness :
  [("hostname", JStr "parent")] <> []
  /\ truthy (get_default [("hostname", JStr "parent")] "mirrored_hosts" (JArr [])) = false
  /\ get_mirrored_host_metrics scenario_server 0 (Some (JObj [("hostname", JStr "parent")]))
     = (Ok [], [])
  /\ run_once scenario_server ok_poster 0 (Some (JObj [("hostname", JStr "parent")]))
     = (Ok false, []).
Proof.
  split; [discriminate|]. split; [reflexivity|].
  apply no_mirrored_hosts_empty_cycle; [discriminate | reflexivity].
Defined.

(** C8 (as stated, refuted): an identifier containing [disk] but not
    [disk_space] gets no unit, and an identifier with an upper-case [CPU]
    still gets [percentage]. *)
Lemma chart_units_disk_and_case :
  py_in "disk" "disk.sda" = true /\ _get_chart_units "disk.sda" = ""
  /\ py_in "cpu" "system.CPU" = false /\ _get_chart_units "system.CPU" = "percentage".
Proof. repeat split; reflexivity. Qed.

(** C8 (amended): on the lower-cased identifier, the first match in the
    order [cpu], [disk_space], [memory] decides the unit: [percentage],
    [GB], [MB]; with none of them the unit is empty. *)
Theorem chart_units_by_substring :
  forall chart_id,
    let lc := py_lower chart_id in
    (py_in "cpu" lc = true -> _get_chart_units chart_id = "percentage")
    /\ (py_in "cpu" lc = false -> py_in "disk_space" lc = true ->
        _get_chart_units chart_id = "GB")
    /\ (py_in "cpu" lc = false -> py_in "disk_space" lc = false ->
        py_in "memory" lc = true -> _get_chart_units chart_id = "MB")
    /\ (py_in "cpu" lc = false -> py_in "disk_space" lc = false ->
        py_in "memory" lc = false -> _get_chart_units chart_id = "").
Proof.
  intros chart_id lc. unfold _get_chart_units. fold lc.
  repeat split; intros; repeat match goal with H : _ = _ |- _ => rewrite H end;
    reflexivity.
Qed.

Lemma chart_units_by_substring_witness :
  _get_chart_units "system.cpu" = "percentage".
Proof. apply (proj1 (chart_units_by_substring "system.cpu")). reflexivity. Defined.

Lemma forward_aggs_posts :
  forall p all_host_data aggs c,
    snd (forward_aggs p all_host_data aggs c) = flat_map (agg_posts all_host_data) aggs.
Proof.
  intros p d aggs. induction aggs as [|a aggs IH]; intro c; [reflexivity|].
  cbn [forward_aggs flat_map]. unfold agg_posts at 1.
  destruct (filter (has_aggregation a) d) as [|x xs]; [exact (IH c)|].
  unfold send_to_proxy, send_to_graphql_proxy, send_to_base. simpl map.
  cbv beta iota zeta.
  match goal with |- context [forward_aggs p d aggs ?c2] =>
    specialize (IH c2); destruct (forward_aggs p d aggs c2) as [c3 ps3] end.
  simpl in *. rewrite IH. reflexivity.
Qed.

Lemma forward_aggs_success :
  forall p all_host_data aggs c,
    (0 < total_sent_clickhouse (fst (forward_aggs p all_host_data aggs c))
         + total_sent_graphql (fst (forward_aggs p all_host_data aggs c)))%nat
    <-> (0 < total_sent_clickhouse c + total_sent_graphql c)%nat
        \/ existsb (post_succeeded p) (flat_map (agg_posts all_host_data) aggs) = true.
Proof.
  intros p d aggs. induction aggs as [|a aggs IH]; intro c.
  - simpl. intuition discriminate.
  - cbn [forward_aggs flat_map]. unfold agg_posts at 1.
    destruct (filter (has_aggregation a) d) as [|x xs]; [exact (IH c)|].
    unfold send_to_proxy, send_to_graphql_proxy, send_to_base. simpl map.
    cbv beta iota zeta.
    set (cm := clean_metric x :: map clean_metric xs).
    match goal with |- context [forward_aggs p d aggs ?c2] =>
      specialize (IH c2); destruct (forward_aggs p d aggs c2) as [c3 ps3] end.
    simpl fst in *. rewrite IH.
    assert (Hcm : (0 < length cm)%nat) by (subst cm; simpl; lia).
    clearbody cm. clear IH.
    unfold post_succeeded. simpl.
    destruct (sent_ok (interpret_post (p (proxy_endpoint PROXY_URL a) cm)));
    destruct (sent_ok (interpret_post (p (proxy_endpoint GRAPHQL_PROXY_URL a) cm)));
    match goal with |- context [existsb ?f ?l] => destruct (existsb f l) end;
    simpl; intuition (try lia; try discriminate).
Qed.

Lemma forward_spec :
  forall p all_host_data,
    forward p all_host_data
    = (existsb (post_succeeded p) (expected_posts all_host_data),
       expected_posts all_host_data).
Proof.
  intros p d. unfold forward, expected_posts.
  destruct d as [|m ms].
  - reflexivity.
  - pose proof (forward_aggs_posts p (m :: ms) AGGREGATION_TYPES (mk_counters 0 0 0)) as Hp.
    pose proof (forward_aggs_success p (m :: ms) AGGREGATION_TYPES (mk_counters 0 0 0)) as Hs.
    destruct (forward_aggs p (m :: ms) AGGREGATION_TYPES (mk_counters 0 0 0)) as [c ps].
    simpl fst in Hs. simpl snd in Hp. subst ps. f_equal.
    simpl in Hs.
    destruct (Nat.ltb_spec 0 (total_sent_clickhouse c + total_sent_graphql c)) as [H|H];
    destruct (existsb _ _); intuition (try lia; try discriminate).
Qed.

Lemma run_once_spec :
  forall srv p now info,
    run_once srv p now info
    = match fst (get_mirrored_host_metrics srv now info) with
      | Err e => (Err e, [])
      | Ok d => (Ok (existsb (post_succeeded p) (expected_posts d)), expected_posts d)
      end.
Proof.
  intros srv p now info. unfold run_once.
  destruct (get_mirrored_host_metrics srv now info) as [[d|e] rs]; simpl; [|reflexivity].
  rewrite forward_spec. reflexivity.
Qed.

Lemma clean_metric_no_marker (m : metric) : dict_get (clean_metric m) AGG_KEY = None.
Proof.
  induction m as [|[k v] m IH]; [reflexivity|].
  unfold clean_metric in *. cbn [filter fst].
  destruct (String.eqb_spec k AGG_KEY) as [-> | Hne]; cbn [negb].
  - exact IH.
  - cbn [dict_get]. rewrite (proj2 (String.eqb_neq AGG_KEY k)) by congruence.
    exact IH.
Qed.

Lemma clean_metric_frame (m : metric) (k : string) :
  k <> AGG_KEY -> dict_get (clean_metric m) k = dict_get m k.
Proof.
  intro Hk. induction m as [|[k' v] m IH]; [reflexivity|].
  unfold clean_metric in *. cbn [filter fst].
  destruct (String.eqb_spec k' AGG_KEY) as [-> | Hne]; cbn [negb dict_get].
  - rewrite (proj2 (String.eqb_neq k AGG_KEY) Hk). exact IH.
  - rewrite IH. reflexivity.
Qed.

Lemma expected_posts_batches (d : list metric) (ep : string) (batch : list metric) :
  In (ep, batch) (expected_posts d) ->
  exists a, batch = map clean_metric (filter (has_aggregation a) d).
Proof.
  unfold expected_posts. rewrite in_flat_map. intros [a [_ Ha]].
  exists a. unfold agg_posts in Ha.
  destruct (filter (has_aggregation a) d) as [|x xs]; [destruct Ha|].
  destruct Ha as [H | [H | []]]; inversion H; reflexivity.
Qed.

Lemma has_aggregation_marker (a : string) (m : metric) :
  has_aggregation a m = true -> dict_get m AGG_KEY = Some (JStr a).
Proof.
  unfold has_aggregation. destruct (dict_get m AGG_KEY) as [[]|]; try discriminate.
  intro H. apply String.eqb_eq in H. subst. reflexivity.
Qed.

Lemma proxy_endpoint_suffix (base a : string) :
  exists suf, proxy_endpoint base a = base ++ suf.
Proof.
  unfold proxy_endpoint.
  destruct (String.eqb a "max"); [eauto|].
  destruct (String.eqb a "average"); [eauto|].
  destruct (String.eqb a "median"); [eauto|].
  exists "". induction base as [|c b IH]; [reflexivity|]. simpl. rewrite <- IH. reflexivity.
Qed.

(** C3: every record of every batch [run_once] posts has no
    [_aggregation_type] field, and is the collected record that carried
    that marker with only the marker removed: every other field is
    unchanged. *)
Theorem run_once_posts_without_marker :
  forall srv p now info ep batch r,
    In (ep, batch) (snd (run_once srv p now info)) ->
    In r batch ->
    dict_get r AGG_KEY = None
    /\ exists m a,
         In m (collected_metrics srv now info)
         /\ dict_get m AGG_KEY = Some (JStr a)
         /\ r = clean_metric m
         /\ (forall k, k <> AGG_KEY -> dict_get r k = dict_get m k).
Proof.
  intros srv p now info ep batch r Hp Hr.
  rewrite run_once_spec in Hp. unfold collected_metrics.
  destruct (fst (get_mirrored_host_metrics srv now info)) as [d|e]; [|destruct Hp].
  simpl in Hp. destruct (expected_posts_batches d ep batch Hp) as [a ->].
  apply in_map_iff in Hr. destruct Hr as [m [<- Hm]].
  apply filter_In in Hm. destruct Hm as [Hm Ha].
  split; [apply clean_metric_no_marker|].
  exists m, a. split; [exact Hm|]. split; [apply has_aggregation_marker; exact Ha|].
  split; [reflexivity|]. intros k Hk. apply clean_metric_frame. exact Hk.
Qed.

Lemma run_once_posts_without_marker_witness :
  let r := clean_metric (make_metric (JInt 1700000000) "web1" "disk_space./"
                           (JStr "used") (PFin 425 (-1)) "average") in
  dict_get r AGG_KEY = None
  /\ exists m a,
       In m (collected_metrics scenario_server 0 (Some web_info))
       /\ dict_get m AGG_KEY = Some (JStr a)
       /\ r = clean_metric m
       /\ (forall k, k <> AGG_KEY -> dict_get r k = dict_get m k).
Proof.
  intro r.
  apply (run_once_posts_without_marker scenario_server ok_poster 0 (Some web_info)
           "http://localhost:8080/avg" [r; clean_metric (make_metric (JInt 1700000000)
             "web2" "disk_space./" (JStr "used") (PFin 425 (-1)) "average")] r).
  - vm_compute. left. reflexivity.
  - simpl. left. reflexivity.
Defined.

(** C10: [run_once] posts every non-empty per-kind batch twice, to the
    ClickHouse proxy endpoint and then to the GraphQL proxy endpoint
    (distinct URLs for every kind); each post is counted on its own, and
    the cycle reports success exactly when at least one post succeeded. *)
Theorem run_once_posts_to_both_proxies :
  forall srv p now info,
    (forall a, proxy_endpoint PROXY_URL a <> proxy_endpoint GRAPHQL_PROXY_URL a)
    /\ run_once srv p now info
       = match fst (get_mirrored_host_metrics srv now info) with
         | Err e => (Err e, [])
         | Ok d =>
             (Ok (existsb (post_succeeded p)
                    (flat_map (fun a =>
                       match filter (has_aggregation a) d with
                       | [] => []
                       | tm => [(proxy_endpoint PROXY_URL a, map clean_metric tm);
                                (proxy_endpoint GRAPHQL_PROXY_URL a, map clean_metric tm)]
                       end) AGGREGATION_TYPES)),
              flat_map (fun a =>
                match filter (has_aggregation a) d with
                | [] => []
                | tm => [(proxy_endpoint PROXY_URL a, map clean_metric tm);
                         (proxy_endpoint GRAPHQL_PROXY_URL a, map clean_metric tm)]
                end) AGGREGATION_TYPES)
         end.
Proof.
  intros srv p now info. split.
  - intros a E.
    destruct (proxy_endpoint_suffix PROXY_URL a) as [s1 E1].
    destruct (proxy_endpoint_suffix GRAPHQL_PROXY_URL a) as [s2 E2].
    rewrite E1, E2 in E.
    assert (G : String.get 19 (PROXY_URL ++ s1) = String.get 19 (GRAPHQL_PROXY_URL ++ s2))
      by (rewrite E; reflexivity).
    rewrite <- !String.append_correct1 in G by (simpl; lia).
    discriminate G.
  - exact (run_once_spec srv p now info).
Qed.

(** C7: with [--once], the exit status is 0 exactly when some batch post
    of the cycle succeeded, and 1 otherwise. *)
Theorem main_once_exit_code :
  forall srv p now info,
    (fst (main_once srv p now info) = 0
     <-> exists x, In x (snd (main_once srv p now info)) /\ post_succeeded p x = true)
    /\ (fst (main_once srv p now info) = 0 \/ fst (main_once srv p now info) = 1).
Proof.
  intros srv p now info. unfold main_once. rewrite run_once_spec.
  destruct (fst (get_mirrored_host_metrics srv now info)) as [d|e]; simpl.
  - destruct (existsb (post_succeeded p) (expected_posts d)) eqn:E; simpl.
    + split; [|left; reflexivity]. split; [intros _ | reflexivity].
      apply existsb_exists. exact E.
    + split; [|right; reflexivity]. split; [discriminate|].
      intros Hx. apply existsb_exists in Hx. congruence.
  - split; [|right; reflexivity]. split; [discriminate | intros [x [[] _]]].
Qed.

(** * Further properties of the code *)

Lemma res_concat_map_forall {A : Type} (P : metric -> Prop)
  (f : A -> res (list metric)) (l : list A) (ms : list metric) :
  (forall x ms', In x l -> f x = Ok ms' -> Forall P ms') ->
  res_concat_map f l = Ok ms -> Forall P ms.
Proof.
  revert ms. induction l as [|x l IH]; intros ms Hf H; simpl in H.
  - inversion H. constructor.
  - destruct (f x) as [ms1|] eqn:E1; [|discriminate]. cbn [bind] in H.
    destruct (res_concat_map f l) as [ms2|] eqn:E2; [|discriminate]. cbn [bind] in H.
    inversion H; subst. apply Forall_app. split.
    + apply (Hf x); [left|]; auto.
    + apply IH; [|reflexivity]. intros y ms' Hy Hy'. apply (Hf y); [right|]; auto.
Qed.

Lemma dimension_loop_shape :
  forall dims i values ts h c a ms,
    dimension_loop i dims values ts h c a = Ok ms ->
    Forall (fun m => exists d f, m = make_metric ts h c d f a) ms.
Proof.
  induction dims as [|d dims IH]; intros i values ts h c a ms H; simpl in H.
  - inversion H. constructor.
  - destruct (py_len values) as [n|]; [|discriminate]. cbn [bind] in H.
    destruct (if (i <? n)%nat then _ else _) as [here|] eqn:Eh; [|discriminate].
    cbn [bind] in H.
    destruct (dimension_loop (S i) dims values ts h c a) as [rest|] eqn:Er;
      [|discriminate].
    cbn [bind] in H. inversion H; subst. apply Forall_app. split.
    + destruct (i <? n)%nat; [|injection Eh as <-; constructor].
      destruct (py_index values i) as [v|]; [|discriminate]. cbn [bind] in Eh.
      unfold value_metric in Eh.
      destruct v; try destruct (py_float _) as [f|[]]; try discriminate;
        injection Eh as <-; repeat constructor; eauto.
    + eapply IH. exact Er.
Qed.

Lemma parse_chart_response_shape :
  forall now cd h c a ms,
    parse_chart_response now cd h c a = Ok ms ->
    Forall (fun m => exists ts d f, m = make_metric ts h c d f a) ms.
Proof.
  intros now cd h c a ms H. unfold parse_chart_response in H.
  destruct cd; try (inversion H; constructor; fail).
  repeat match goal with
  | H : Ok _ = Ok _ |- _ => inversion H; subst; clear H; constructor
  | H : (if ?b then _ else _) = Ok _ |- _ => destruct b
  | H : bind ?r _ = Ok _ |- _ =>
      let E := fresh "E" in destruct r eqn:E; cbn [bind] in H; [|discriminate]
  end.
  all: eapply Forall_impl; [|eapply dimension_loop_shape; eassumption].
  all: intros m [d [f ->]]; eauto.
Qed.

Ltac metric_fields :=
  repeat split; try reflexivity; eexists; reflexivity.

(** X1: every record [parse_chart_response] emits carries the request
    context: the aggregation marker, host, chart id, derived chart name,
    units, family, context and chart type, and a float value. *)
Theorem parse_chart_response_record_fields :
  forall now cd h c a ms,
    parse_chart_response now cd h c a = Ok ms ->
    Forall (fun m =>
      dict_get m AGG_KEY = Some (JStr a)
      /\ dict_get m "hostname" = Some (JStr h)
      /\ dict_get m "chart_id" = Some (JStr c)
      /\ dict_get m "chart_name" = Some (JStr (py_title (replace_underscores c)))
      /\ dict_get m "units" = Some (JStr (_get_chart_units c))
      /\ dict_get m "family" = Some (JStr (chart_family c))
      /\ dict_get m "context" = Some (JStr c)
      /\ dict_get m "chart_type" = Some (JStr "line")
      /\ exists f, dict_get m "value" = Some (JFloat f)) ms.
Proof.
  intros now cd h c a ms H.
  eapply Forall_impl; [|eapply parse_chart_response_shape; exact H].
  intros m [ts [d [f ->]]]. metric_fields.
Qed.

Lemma parse_chart_response_record_fields_witness :
  Forall (fun m =>
      dict_get m AGG_KEY = Some (JStr "average")
      /\ dict_get m "hostname" = Some (JStr "web1")
      /\ dict_get m "chart_id" = Some (JStr "disk_space./")
      /\ dict_get m "chart_name" = Some (JStr (py_title (replace_underscores "disk_space./")))
      /\ dict_get m "units" = Some (JStr (_get_chart_units "disk_space./"))
      /\ dict_get m "family" = Some (JStr (chart_family "disk_space./"))
      /\ dict_get m "context" = Some (JStr "disk_space./")
      /\ dict_get m "chart_type" = Some (JStr "line")
      /\ exists f, dict_get m "value" = Some (JFloat f))
    [make_metric (JInt 1700000000) "web1" "disk_space./" (JStr "used") (PFin 425 (-1))
       "average"].
Proof.
  apply (parse_chart_response_record_fields 0 disk_payload "web1" "disk_space./" "average").
  reflexivity.
Defined.

Lemma py_in_dot_cons (x : ascii) (s : string) :
  py_in "." (String x s) = Ascii.eqb x "."%char || py_in "." s.
Proof.
  unfold py_in. cbn [list_ascii_of_string py_in_chars string_of_list_ascii].
  destruct (Ascii.eqb_spec x "."%char) as [-> | Hne].
  { cbn [String.prefix]. destruct (ascii_dec "." "."); [|congruence].
    destruct (string_of_list_ascii (list_ascii_of_string s)); reflexivity. }
  cbn [String.prefix]. destruct (ascii_dec "." x) as [E|]; [congruence|]. reflexivity.
Qed.

Lemma chart_family_cons (x : ascii) (s : string) :
  chart_family (String x s)
  = if Ascii.eqb x "."%char then ""
    else if py_in "." s then String x (chart_family s) else "".
Proof.
  unfold chart_family. rewrite py_in_dot_cons.
  destruct (Ascii.eqb_spec x "."%char) as [-> | Hne]; [reflexivity|].
  simpl orb. destruct (py_in "." s); [|reflexivity].
  cbn [list_ascii_of_string before_dot].
  replace (Ascii.eqb x ".") with false by (symmetry; apply Ascii.eqb_neq; exact Hne).
  reflexivity.
Qed.

(** X2: the [family] field is the part of the chart id before its first
    dot (it contains no dot, and is followed by a dot in the id); an id
    without a dot has an empty family. *)
Theorem chart_family_before_first_dot :
  forall chart_id,
    (py_in "." chart_id = true ->
     exists rest, chart_id = chart_family chart_id ++ "." ++ rest
                  /\ py_in "." (chart_family chart_id) = false)
    /\ (py_in "." chart_id = false -> chart_family chart_id = "").
Proof.
  induction chart_id as [|x s IH].
  - split; [discriminate | reflexivity].
  - rewrite py_in_dot_cons, chart_family_cons.
    destruct (Ascii.eqb_spec x "."%char) as [-> | Hne].
    + split; [|discriminate]. intros _. exists s. split; reflexivity.
    + simpl orb. destruct IH as [IH1 IH2].
      destruct (py_in "." s) eqn:Es.
      * split; [|discriminate]. intros _.
        destruct (IH1 eq_refl) as [rest [Hs Hf]]. exists rest. split.
        -- rewrite Hs at 1. reflexivity.
        -- rewrite py_in_dot_cons, Hf.
           replace (Ascii.eqb x ".") with false by (symmetry; apply Ascii.eqb_neq; exact Hne).
           reflexivity.
      * split; [discriminate | reflexivity].
Qed.

Lemma chart_family_before_first_dot_witness :
  exists rest, "disk_space./" = chart_family "disk_space./" ++ "." ++ rest
               /\ py_in "." (chart_family "disk_space./") = false.
Proof. apply (proj1 (chart_family_before_first_dot "disk_space./")). reflexivity. Defined.

Lemma collect_one_spec :
  forall srv now h c a,
    snd (collect_one srv now h c a) = [host_data_request h c a NETDATA_URL]
    /\ Forall (fun m => exists ts d f, m = make_metric ts h c d f a)
         (fst (collect_one srv now h c a)).
Proof.
  intros srv now h c a. unfold collect_one, get_chart_data.
  destruct (srv (host_data_request h c a NETDATA_URL)) as [|st [body|]];
    try (split; [reflexivity | constructor]).
  destruct (st =? 200); [|split; [reflexivity | constructor]].
  destruct (truthy body); [|split; [reflexivity | constructor]].
  destruct (parse_chart_response now body h c a) as [ms|] eqn:E;
    [|split; [reflexivity | constructor]].
  split; [reflexivity|]. exact (parse_chart_response_shape _ _ _ _ _ _ E).
Qed.

Lemma collect_aggs_spec :
  forall srv now h c aggs,
    snd (collect_aggs srv now h c aggs)
    = map (fun a => host_data_request h c a NETDATA_URL) aggs
    /\ Forall (fun m => exists a ts d f, In a aggs /\ m = make_metric ts h c d f a)
         (fst (collect_aggs srv now h c aggs)).
Proof.
  intros srv now h c aggs. induction aggs as [|a aggs IH]; [split; [reflexivity | constructor]|].
  simpl collect_aggs. pose proof (collect_one_spec srv now h c a) as [H1 H2].
  destruct (collect_one srv now h c a) as [ms rs].
  destruct (collect_aggs srv now h c aggs) as [ms' rs']. destruct IH as [IH1 IH2].
  cbn [fst snd] in *. subst. split; [reflexivity|]. apply Forall_app. split.
  - eapply Forall_impl; [|exact H2]. intros m [ts [d [f ->]]]. exists a, ts, d, f. simpl; auto.
  - eapply Forall_impl; [|exact IH2]. intros m [a' [ts [d [f [Ha ->]]]]].
    exists a', ts, d, f. simpl; auto.
Qed.

Lemma collect_charts_spec :
  forall srv now h charts,
    snd (collect_charts srv now h charts)
    = flat_map (fun c => map (fun a => host_data_request h c a NETDATA_URL)
                           AGGREGATION_TYPES) charts
    /\ Forall (fun m => exists c a ts d f, In c charts /\ In a AGGREGATION_TYPES
                                           /\ m = make_metric ts h c d f a)
         (fst (collect_charts srv now h charts)).
Proof.
  intros srv now h charts.
  induction charts as [|c charts IH]; [split; [reflexivity | constructor]|].
  cbn [collect_charts]. pose proof (collect_aggs_spec srv now h c AGGREGATION_TYPES) as [H1 H2].
  destruct (collect_aggs srv now h c AGGREGATION_TYPES) as [ms rs].
  destruct (collect_charts srv now h charts) as [ms' rs']. destruct IH as [IH1 IH2].
  cbn [fst snd] in *. subst. split; [reflexivity|]. apply Forall_app. split.
  - eapply Forall_impl; [|exact H2]. intros m [a [ts [d [f [Ha ->]]]]].
    exists c, a, ts, d, f. simpl; auto.
  - eapply Forall_impl; [|exact IH2]. intros m [c' [a [ts [d [f [Hc [Ha ->]]]]]]].
    exists c', a, ts, d, f. simpl; auto.
Qed.

Lemma collect_hosts_spec :
  forall srv now hosts,
    snd (collect_hosts srv now hosts)
    = flat_map (fun h => flat_map (fun c =>
        map (fun a => host_data_request h c a NETDATA_URL) AGGREGATION_TYPES)
        CHARTS_TO_COLLECT) hosts
    /\ Forall (collected_shape hosts) (fst (collect_hosts srv now hosts)).
Proof.
  intros srv now hosts.
  induction hosts as [|h hosts IH]; [split; [reflexivity | constructor]|].
  cbn [collect_hosts]. pose proof (collect_charts_spec srv now h CHARTS_TO_COLLECT) as [H1 H2].
  destruct (collect_charts srv now h CHARTS_TO_COLLECT) as [ms rs].
  destruct (collect_hosts srv now hosts) as [ms' rs']. destruct IH as [IH1 IH2].
  cbn [fst snd] in *. subst. split; [reflexivity|]. apply Forall_app. split.
  - eapply Forall_impl; [|exact H2]. intros m [c [a [ts [d [f [Hc [Ha ->]]]]]]].
    exists h, c, a, ts, d, f. simpl. auto.
  - eapply Forall_impl; [|exact IH2]. intros m [h' [c [a [ts [d [f [Hh [Hc [Ha ->]]]]]]]]].
    exists h', c, a, ts, d, f. simpl. auto.
Qed.

Lemma all_strings_map (hosts : list string) : all_strings (map JStr hosts) = Ok hosts.
Proof. induction hosts as [|h hosts IH]; [reflexivity|]. simpl. rewrite IH. reflexivity. Qed.

Lemma get_mirrored_host_metrics_hosts :
  forall srv now kvs hosts,
    get_default kvs "mirrored_hosts" (JArr []) = JArr (map JStr hosts) ->
    hosts <> [] ->
    get_mirrored_host_metrics srv now (Some (JObj kvs))
    = (Ok (fst (collect_hosts srv now hosts)), snd (collect_hosts srv now hosts)).
Proof.
  intros srv now kvs hosts Hm Hne.
  assert (Hk : kvs <> []) by (intro E; subst; destruct hosts; [congruence | discriminate Hm]).
  unfold get_mirrored_host_metrics.
  replace (truthy (JObj kvs)) with true by (destruct kvs; [congruence | reflexivity]).
  rewrite Hm. destruct hosts as [|h hs]; [congruence|].
  cbn [truthy negb map py_len py_iter bind]. rewrite <- (map_cons JStr h hs), all_strings_map.
  destruct (collect_hosts srv now (h :: hs)); reflexivity.
Qed.

(** X3: for an info answer listing mirrored hosts, the collection issues
    exactly one host-scoped data request per host, chart of
    [CHARTS_TO_COLLECT] and aggregation kind, in that nesting order,
    whatever the answers; so 6 requests per host. *)
Theorem get_mirrored_host_metrics_requests :
  forall srv now kvs hosts,
    get_default kvs "mirrored_hosts" (JArr []) = JArr (map JStr hosts) ->
    hosts <> [] ->
    snd (get_mirrored_host_metrics srv now (Some (JObj kvs)))
    = flat_map (fun h => flat_map (fun c =>
        map (fun a => host_data_request h c a NETDATA_URL) AGGREGATION_TYPES)
        CHARTS_TO_COLLECT) hosts
    /\ length (snd (get_mirrored_host_metrics srv now (Some (JObj kvs))))
       = (6 * length hosts)%nat.
Proof.
  intros srv now kvs hosts Hm Hne.
  rewrite (get_mirrored_host_metrics_hosts srv now kvs hosts Hm Hne). simpl snd.
  rewrite (proj1 (collect_hosts_spec srv now hosts)). split; [reflexivity|].
  clear. induction hosts as [|h hosts IH]; [reflexivity|].
  cbn [flat_map]. rewrite length_app, IH. simpl. lia.
Qed.

Lemma get_mirrored_host_metrics_requests_witness :
  snd (get_mirrored_host_metrics scenario_server 0 (Some web_info))
  = flat_map (fun h => flat_map (fun c =>
      map (fun a => host_data_request h c a NETDATA_URL) AGGREGATION_TYPES)
      CHARTS_TO_COLLECT) ["web1"; "web2"]
  /\ length (snd (get_mirrored_host_metrics scenario_server 0 (Some web_info)))
     = (6 * length ["web1"; "web2"])%nat.
Proof.
  apply (get_mirrored_host_metrics_requests scenario_server 0
           [("hostname", JStr "parent"); ("mirrored_hosts", JArr [JStr "web1"; JStr "web2"])]
           ["web1"; "web2"]); [reflexivity | discriminate].
Defined.

(** X4: every metric collected from the listed mirrored hosts was built
    by the normaliser for one of those hosts, one chart of
    [CHARTS_TO_COLLECT] and one kind of [AGGREGATION_TYPES], which its
    [hostname], [chart_id] and aggregation marker record. *)
Theorem get_mirrored_host_metrics_records :
  forall srv now kvs hosts ms,
    get_default kvs "mirrored_hosts" (JArr []) = JArr (map JStr hosts) ->
    hosts <> [] ->
    fst (get_mirrored_host_metrics srv now (Some (JObj kvs))) = Ok ms ->
    Forall (fun m => exists h c a,
              In h hosts /\ In c CHARTS_TO_COLLECT /\ In a AGGREGATION_TYPES
              /\ dict_get m "hostname" = Some (JStr h)
              /\ dict_get m "chart_id" = Some (JStr c)
              /\ dict_get m AGG_KEY = Some (JStr a)) ms.
Proof.
  intros srv now kvs hosts ms Hm Hne H.
  rewrite (get_mirrored_host_metrics_hosts srv now kvs hosts Hm Hne) in H.
  injection H as <-.
  eapply Forall_impl; [|exact (proj2 (collect_hosts_spec srv now hosts))].
  intros m [h [c [a [ts [d [f [Hh [Hc [Ha ->]]]]]]]]].
  exists h, c, a. repeat split; auto.
Qed.

Lemma get_mirrored_host_metrics_records_witness :
  Forall (fun m => exists h c a,
            In h ["web1"; "web2"] /\ In c CHARTS_TO_COLLECT /\ In a AGGREGATION_TYPES
            /\ dict_get m "hostname" = Some (JStr h)
            /\ dict_get m "chart_id" = Some (JStr c)
            /\ dict_get m AGG_KEY = Some (JStr a))
    (collected_metrics scenario_server 0 (Some web_info)).
Proof.
  apply (get_mirrored_host_metrics_records scenario_server 0
           [("hostname", JStr "parent"); ("mirrored_hosts", JArr [JStr "web1"; JStr "web2"])]
           ["web1"; "web2"]); [reflexivity | discriminate | reflexivity].
Defined.

Lemma all_strings_non_string (l : list json) :
  (exists x, In x l /\ forall s, x <> JStr s) -> all_strings l = Err TypeError.
Proof.
  induction l as [|y l IH]; intros [x [Hx Hs]]; [destruct Hx|].
  destruct Hx as [-> | Hx].
  - destruct x; try reflexivity. exfalso. exact (Hs s eq_refl).
  - destruct y; try reflexivity. simpl. rewrite IH by eauto. reflexivity.
Qed.

(** X5: when the [mirrored_hosts] list of the info answer holds an
    element that is not a string, [', '.join] raises a [TypeError] before
    the host loop: the exception escapes and no data request is issued. *)
Theorem get_mirrored_host_metrics_non_string_host :
  forall srv now kvs l,
    get_default kvs "mirrored_hosts" (JArr []) = JArr l ->
    (exists x, In x l /\ forall s, x <> JStr s) ->
    get_mirrored_host_metrics srv now (Some (JObj kvs)) = (Err TypeError, []).
Proof.
  intros srv now kvs l Hm Hx.
  assert (Hl : l <> []) by (intros ->; destruct Hx as [x [[] _]]).
  assert (Hk : kvs <> []) by (intros ->; simpl in Hm; injection Hm as <-; congruence).
  unfold get_mirrored_host_metrics.
  replace (truthy (JObj kvs)) with true by (destruct kvs; [congruence | reflexivity]).
  rewrite Hm. replace (truthy (JArr l)) with true by (destruct l; [congruence | reflexivity]).
  cbn [negb py_len py_iter bind]. rewrite (all_strings_non_string l Hx). reflexivity.
Qed.

Lemma get_mirrored_host_metrics_non_string_host_witness :
  get_mirrored_host_metrics scenario_server 0
    (Some (JObj [("mirrored_hosts", JArr [JStr "web1"; JInt 7])])) = (Err TypeError, []).
Proof.
  apply (get_mirrored_host_metrics_non_string_host scenario_server 0
           [("mirrored_hosts", JArr [JStr "web1"; JInt 7])] [JStr "web1"; JInt 7]);
    [reflexivity|].
  exists (JInt 7). split; [simpl; auto | discriminate].
Defined.

(** Whatever the info answer, the records collected from mirrored hosts
    come from the normaliser for a chart of [CHARTS_TO_COLLECT] and a kind
    of [AGGREGATION_TYPES]. *)
Lemma get_mirrored_host_metrics_ok_shape :
  forall srv now info ms,
    fst (get_mirrored_host_metrics srv now info) = Ok ms ->
    Forall (fun m => exists h c a ts d f,
              In c CHARTS_TO_COLLECT /\ In a AGGREGATION_TYPES
              /\ m = make_metric ts h c d f a) ms.
Proof.
  intros srv now info ms H. unfold get_mirrored_host_metrics in H.
  destruct info as [i|]; [|injection H as <-; constructor].
  destruct (negb (truthy i)); [injection H as <-; constructor|].
  destruct i; try discriminate.
  destruct (negb (truthy _)); [injection H as <-; constructor|].
  destruct (bind _ _) as [hosts|e]; [|discriminate].
  pose proof (proj2 (collect_hosts_spec srv now hosts)) as Hs.
  destruct (collect_hosts srv now hosts) as [ms' rs]. injection H as <-.
  eapply Forall_impl; [|exact Hs].
  intros m [h [c [a [ts [d [f [_ [Hc [Ha ->]]]]]]]]]. exists h, c, a, ts, d, f. auto.
Qed.

Lemma has_aggregation_make_metric (ts : json) (h c : string) (d : json)
  (f : pyfloat) (a : string) :
  has_aggregation a (make_metric ts h c d f a) = true.
Proof. unfold has_aggregation. cbn. apply String.eqb_refl. Qed.

(** X6: no collected record is lost on the way out: each one carries the
    marker of a kind of [AGGREGATION_TYPES], and [run_once] posts one batch
    holding it, cleaned of the marker, to that kind's endpoint of the
    ClickHouse proxy and the same batch to that kind's endpoint of the
    GraphQL proxy. *)
Theorem run_once_forwards_every_record :
  forall srv p now info m,
    In m (collected_metrics srv now info) ->
    exists a batch,
      In a AGGREGATION_TYPES
      /\ dict_get m AGG_KEY = Some (JStr a)
      /\ In (clean_metric m) batch
      /\ In (proxy_endpoint PROXY_URL a, batch) (snd (run_once srv p now info))
      /\ In (proxy_endpoint GRAPHQL_PROXY_URL a, batch) (snd (run_once srv p now info)).
Proof.
  intros srv p now info m Hm. unfold collected_metrics in Hm.
  rewrite run_once_spec.
  destruct (fst (get_mirrored_host_metrics srv now info)) as [d|e] eqn:E; [|destruct Hm].
  pose proof (get_mirrored_host_metrics_ok_shape srv now info d E) as Hs.
  rewrite Forall_forall in Hs.
  destruct (Hs m Hm) as [h [c [a [ts [dm [f [_ [Ha Em]]]]]]]].
  assert (Hf : In m (filter (has_aggregation a) d)).
  { apply filter_In. split; [exact Hm|]. subst m. apply has_aggregation_make_metric. }
  exists a, (map clean_metric (filter (has_aggregation a) d)). cbn [snd].
  split; [exact Ha|].
  split; [apply has_aggregation_marker; apply filter_In in Hf; apply Hf|].
  split; [apply in_map; exact Hf|].
  unfold expected_posts. rewrite !in_flat_map.
  split; exists a; (split; [exact Ha|]); unfold agg_posts;
    (destruct (filter (has_aggregation a) d) as [|x xs]; [destruct Hf | simpl; auto]).
Qed.

Lemma run_once_forwards_every_record_witness :
  exists a batch,
    In a AGGREGATION_TYPES
    /\ dict_get (nth 0 (collected_metrics scenario_server 0 (Some web_info)) [])
         AGG_KEY = Some (JStr a)
    /\ In (clean_metric (nth 0 (collected_metrics scenario_server 0 (Some web_info)) []))
          batch
    /\ In (proxy_endpoint PROXY_URL a, batch)
          (snd (run_once scenario_server ok_poster 0 (Some web_info)))
    /\ In (proxy_endpoint GRAPHQL_PROXY_URL a, batch)
          (snd (run_once scenario_server ok_poster 0 (Some web_info))).
Proof.
  apply (run_once_forwards_every_record scenario_server ok_poster 0 (Some web_info)).
  vm_compute. left. reflexivity.
Defined.

(** X7: a cycle issues at most six POSTs, one per proxy and aggregation
    kind, and only to the six kind-specific endpoints: never to a proxy's
    base URL, whatever the collected records hold. *)
Theorem run_once_post_targets :
  forall srv p now info,
    (length (snd (run_once srv p now info)) <= 6)%nat
    /\ Forall (fun x => In (fst x) proxy_endpoints) (snd (run_once srv p now info))
    /\ NoDup (map fst (snd (run_once srv p now info))).
Proof.
  intros srv p now info. rewrite run_once_spec.
  destruct (fst (get_mirrored_host_metrics srv now info)) as [d|e];
    [|split; [simpl; lia | split; constructor]].
  cbn [snd]. unfold expected_posts, agg_posts. cbn [flat_map AGGREGATION_TYPES].
  destruct (filter (has_aggregation "max") d);
  destruct (filter (has_aggregation "average") d);
  destruct (filter (has_aggregation "median") d);
  vm_compute; (split; [lia|]); (split; [repeat constructor; intuition discriminate|]);
  repeat constructor; simpl; intuition discriminate.
Qed.

Lemma collect_local_one_spec :
  forall srv now c a,
    snd (collect_local_one srv now c a) = [direct_data_request c a NETDATA_LOCAL_URL]
    /\ Forall (fun m => exists ts d f, m = make_metric ts local_hostname c d f a)
         (fst (collect_local_one srv now c a)).
Proof.
  intros srv now c a. unfold collect_local_one, get_chart_data_direct.
  destruct (srv (direct_data_request c a NETDATA_LOCAL_URL)) as [|st [body|]];
    try (split; [reflexivity | constructor]).
  destruct (st =? 200); [|split; [reflexivity | constructor]].
  destruct (truthy body); [|split; [reflexivity | constructor]].
  destruct (parse_chart_response now body local_hostname c a) as [ms|] eqn:E;
    [|split; [reflexivity | constructor]].
  split; [reflexivity|]. exact (parse_chart_response_shape _ _ _ _ _ _ E).
Qed.

Lemma collect_local_aggs_spec :
  forall srv now c aggs,
    snd (collect_local_aggs srv now c aggs)
    = map (fun a => direct_data_request c a NETDATA_LOCAL_URL) aggs
    /\ Forall (fun m => exists a ts d f, In a aggs
                                         /\ m = make_metric ts local_hostname c d f a)
         (fst (collect_local_aggs srv now c aggs)).
Proof.
  intros srv now c aggs. induction aggs as [|a aggs IH]; [split; [reflexivity | constructor]|].
  cbn [collect_local_aggs]. pose proof (collect_local_one_spec srv now c a) as [H1 H2].
  destruct (collect_local_one srv now c a) as [ms rs].
  destruct (collect_local_aggs srv now c aggs) as [ms' rs']. destruct IH as [IH1 IH2].
  cbn [fst snd] in *. subst. split; [reflexivity|]. apply Forall_app. split.
  - eapply Forall_impl; [|exact H2]. intros m [ts [d [f ->]]].
    exists a, ts, d, f. simpl; auto.
  - eapply Forall_impl; [|exact IH2]. intros m [a' [ts [d [f [Ha ->]]]]].
    exists a', ts, d, f. simpl; auto.
Qed.

Lemma collect_local_charts_spec :
  forall srv now charts,
    snd (collect_local_charts srv now charts)
    = flat_map (fun c => map (fun a => direct_data_request c a NETDATA_LOCAL_URL)
                           AGGREGATION_TYPES) charts
    /\ Forall (fun m => exists c a ts d f,
                 In c charts /\ In a AGGREGATION_TYPES
                 /\ m = make_metric ts local_hostname c d f a)
         (fst (collect_local_charts srv now charts)).
Proof.
  intros srv now charts.
  induction charts as [|c charts IH]; [split; [reflexivity | constructor]|].
  cbn [collect_local_charts].
  pose proof (collect_local_aggs_spec srv now c AGGREGATION_TYPES) as [H1 H2].
  destruct (collect_local_aggs srv now c AGGREGATION_TYPES) as [ms rs].
  destruct (collect_local_charts srv now charts) as [ms' rs']. destruct IH as [IH1 IH2].
  cbn [fst snd] in *. subst. split; [reflexivity|]. apply Forall_app. split.
  - eapply Forall_impl; [|exact H2]. intros m [a [ts [d [f [Ha ->]]]]].
    exists c, a, ts, d, f. simpl; auto.
  - eapply Forall_impl; [|exact IH2]. intros m [c' [a [ts [d [f [Hc [Ha ->]]]]]]].
    exists c', a, ts, d, f. simpl; auto.
Qed.

(** X8: the local fetch asks the local Netdata directly, one
    [/api/v1/data] request per chart of [CHARTS_TO_COLLECT] and
    aggregation kind (six in all, whatever the answers), and every record
    it keeps is tagged with the fixed local host name, a chart of
    [CHARTS_TO_COLLECT] and a kind of [AGGREGATION_TYPES]. *)
Theorem get_local_host_metrics_spec :
  forall srv now,
    snd (get_local_host_metrics srv now)
    = flat_map (fun c => map (fun a => direct_data_request c a NETDATA_LOCAL_URL)
                           AGGREGATION_TYPES) CHARTS_TO_COLLECT
    /\ length (snd (get_local_host_metrics srv now)) = 6%nat
    /\ Forall (fun m => exists c a,
                 In c CHARTS_TO_COLLECT /\ In a AGGREGATION_TYPES
                 /\ dict_get m "hostname" = Some (JStr local_hostname)
                 /\ dict_get m "chart_id" = Some (JStr c)
                 /\ dict_get m AGG_KEY = Some (JStr a))
         (fst (get_local_host_metrics srv now)).
Proof.
  intros srv now. unfold get_local_host_metrics.
  destruct (collect_local_charts_spec srv now CHARTS_TO_COLLECT) as [H1 H2].
  rewrite H1. split; [reflexivity|]. split; [reflexivity|].
  eapply Forall_impl; [|exact H2].
  intros m [c [a [ts [d [f [Hc [Ha ->]]]]]]]. exists c, a. repeat split; auto.
Qed.

(** X9: when the info call fails (no answer, or a 4xx or 5xx status),
    [get_metrics_for_all_hosts] issues that one request only and returns
    no metric, without raising. *)
Theorem get_metrics_for_all_hosts_info_failure :
  forall srv now,
    srv info_request = Transport
    \/ (exists st body, srv info_request = Resp st body /\ 400 <= st < 600) ->
    get_metrics_for_all_hosts srv now = (Ok [], [info_request]).
Proof.
  intros srv now H. unfold get_metrics_for_all_hosts, get_netdata_info.
  destruct H as [H | [st [body [H Hst]]]]; rewrite H; [reflexivity|].
  replace ((400 <=? st) && (st <? 600)) with true
    by (symmetry; apply andb_true_iff; split; [apply Z.leb_le | apply Z.ltb_lt]; lia).
  reflexivity.
Qed.

Lemma get_metrics_for_all_hosts_info_failure_witness :
  get_metrics_for_all_hosts scenario_server 0 = (Ok [], [info_request]).
Proof.
  apply get_metrics_for_all_hosts_info_failure. right.
  exists 404, None. split; [reflexivity | lia].
Defined.



Lemma res_concat_map_length {A : Type} (g : A -> nat)
  (f : A -> res (list metric)) (l : list A) (ms : list metric) :
  (forall x ms', In x l -> f x = Ok ms' -> (length ms' <= g x)%nat) ->
  res_concat_map f l = Ok ms -> (length ms <= list_sum (map g l))%nat.
Proof.
  revert ms. induction l as [|x l IH]; intros ms Hf H; simpl in H.
  - inversion H. simpl. lia.
  - destruct (f x) as [ms1|] eqn:E1; [|discriminate]. cbn [bind] in H.
    destruct (res_concat_map f l) as [ms2|] eqn:E2; [|discriminate]. cbn [bind] in H.
    inversion H; subst. rewrite length_app. change (list_sum (map g (x :: l))) with (g x + list_sum (map g l))%nat.
    pose proof (Hf x ms1 (or_introl eq_refl) E1).
    assert (length ms2 <= list_sum (map g l))%nat.
    { apply IH; [|reflexivity]. intros y ms' Hy Hy'. apply (Hf y); [right|]; auto. }
    lia.
Qed.

Lemma transform_dimension_shape :
  forall ts hn c cn u fa cx ct dim ms,
    transform_dimension ts hn c cn u fa cx ct dim = Ok ms ->
    (length ms <= 1)%nat
    /\ Forall (fun m => map fst m = transform_keys
                        /\ exists f, dict_get m "value" = Some (JFloat f)) ms.
Proof.
  intros ts hn c cn u fa cx ct [k v] ms H. unfold transform_dimension in H. cbn [snd fst] in H.
  repeat match goal with
  | H : Ok _ = Ok _ |- _ => injection H as <-
  | H : Err _ = Ok _ |- _ => discriminate H
  | H : match ?x with _ => _ end = Ok _ |- _ => destruct x
  end.
  all: split; [simpl; lia|]; repeat constructor; eexists; reflexivity.
Qed.

Lemma transform_chart_shape :
  forall now h chart ms,
    transform_chart now h chart = Ok ms ->
    (length ms <= chart_dimension_entries chart)%nat /\ Forall transform_record ms.
Proof.
  intros now h [c v] ms H. unfold transform_chart, chart_dimension_entries in *.
  cbn [fst snd] in *. destruct v; try (injection H as <-; split; [apply Nat.le_0_l | constructor]).
  cbv zeta in H.
  destruct (match dict_get kvs "last_updated" with
            | Some t => if truthy t then py_int t else Ok now
            | None => Ok now
            end) as [ts|e]; [|discriminate]. cbn [bind] in H.
  destruct (negb (truthy (get_default kvs "dimensions" (JObj [])))).
  { injection H as <-. split; [apply Nat.le_0_l | constructor]. }
  destruct (get_default kvs "dimensions" (JObj [])) as [| | | | | |dims]; try discriminate.
  split.
  - replace (length dims) with (list_sum (map (fun _ => 1%nat) dims)).
    + eapply res_concat_map_length; [|exact H].
      intros x ms' _ Hx. apply (transform_dimension_shape _ _ _ _ _ _ _ _ _ _ Hx).
    + clear. induction dims as [|x dims IH]; [reflexivity|]. simpl. rewrite IH. reflexivity.
  - eapply res_concat_map_forall; [|exact H].
    intros x ms' _ Hx. apply (transform_dimension_shape _ _ _ _ _ _ _ _ _ _ Hx).
Qed.

Lemma transform_metrics_shape :
  forall now all_host_data ms,
    transform_metrics now all_host_data = Ok ms ->
    (length ms <= dimension_entries all_host_data)%nat /\ Forall transform_record ms.
Proof.
  intros now d ms H. unfold transform_metrics in H.
  destruct (negb (truthy d)); [injection H as <-; split; [apply Nat.le_0_l | constructor]|].
  destruct d as [| | | | | |hosts]; try discriminate. split.
  - change (dimension_entries (JObj hosts)) with (list_sum (map host_dimension_entries hosts)).
    eapply res_concat_map_length; [|exact H].
    intros [hn hv] ms' _ Hx. unfold transform_host, host_dimension_entries in *.
    cbn [fst snd] in *. destruct hv; try (injection Hx as <-; apply Nat.le_0_l).
    eapply res_concat_map_length; [|exact Hx].
    intros chart ms'' _ Hc. apply (transform_chart_shape _ _ _ _ Hc).
  - eapply res_concat_map_forall; [|exact H].
    intros [hn hv] ms' _ Hx. unfold transform_host in Hx. cbn [fst snd] in Hx.
    destruct hv; try (injection Hx as <-; constructor).
    eapply res_concat_map_forall; [|exact Hx].
    intros chart ms'' _ Hc. apply (transform_chart_shape _ _ _ _ Hc).
Qed.

Lemma transform_keys_no_marker (m : metric) :
  map fst m = transform_keys -> dict_get m AGG_KEY = None.
Proof.
  intro H.
  do 10 (destruct m as [|[? ?] m]; [discriminate|]).
  destruct m; [|discriminate]. injection H as -> -> -> -> -> -> -> -> -> ->. reflexivity.
Qed.

(** X11: every record [transform_metrics] builds has exactly the ten
    fields [timestamp], [hostname], [chart_id], [chart_name], [id],
    [value], [units], [family], [context], [chart_type], in that order (so
    no aggregation marker), and its value is a float. *)
Theorem transform_metrics_record_keys :
  forall now all_host_data ms,
    transform_metrics now all_host_data = Ok ms ->
    Forall (fun m => map fst m = transform_keys
                     /\ dict_get m AGG_KEY = None
                     /\ exists f, dict_get m "value" = Some (JFloat f)) ms.
Proof.
  intros now d ms H.
  eapply Forall_impl; [|exact (proj2 (transform_metrics_shape now d ms H))].
  intros m [Hk Hv]. split; [exact Hk|]. split; [apply transform_keys_no_marker; exact Hk|].
  exact Hv.
Qed.

Lemma transform_metrics_record_keys_witness :
  Forall (fun m => map fst m = transform_keys
                   /\ dict_get m AGG_KEY = None
                   /\ exists f, dict_get m "value" = Some (JFloat f))
    [[("timestamp", JInt 1700000000); ("hostname", JStr "web1");
      ("chart_id", JStr "system.cpu"); ("chart_name", JStr "system.cpu");
      ("id", JStr "user"); ("value", JFloat (PFin 15 (-1)));
      ("units", JStr ""); ("family", JStr ""); ("context", JStr "system.cpu");
      ("chart_type", JStr "line")]].
Proof. apply (transform_metrics_record_keys 5 transform_sample). reflexivity. Defined.





(** X14: an integer value too large for a double in the first dimension
    of a data row makes [float()] raise [OverflowError], which the
    normaliser does not catch: the whole response is rejected, and the
    host loop, which catches it per query, keeps no record of that query,
    not even those of the other dimensions. *)
Theorem overflowing_value_drops_query :
  forall srv now kvs h c a l0 d ds t z vs rows,
    get_default kvs "labels" (JArr []) = JArr (l0 :: d :: ds) ->
    get_default kvs "data" (JArr []) = JArr (JArr (t :: JInt z :: vs) :: rows) ->
    overflow_bound <= Z.abs z ->
    parse_chart_response now (JObj kvs) h c a = Err OverflowError
    /\ (srv (host_data_request h c a NETDATA_URL) = Resp 200 (Some (JObj kvs)) ->
        collect_one srv now h c a = ([], [host_data_request h c a NETDATA_URL])).
Proof.
  intros srv now kvs h c a l0 d ds t z vs rows Hl Hd Hz.
  assert (Hk : kvs <> []) by (intros ->; discriminate Hl).
  assert (Hp : parse_chart_response now (JObj kvs) h c a = Err OverflowError).
  { unfold parse_chart_response.
    replace (truthy (JObj kvs)) with true by (destruct kvs; [congruence | reflexivity]).
    rewrite Hl, Hd. apply Z.leb_le in Hz. cbn -[overflow_bound]. rewrite Hz. reflexivity. }
  split; [exact Hp|]. intro Hs.
  unfold collect_one, get_chart_data. rewrite Hs. cbn [Z.eqb Pos.eqb]. cbv iota beta.
  replace (truthy (JObj kvs)) with true by (destruct kvs; [congruence | reflexivity]).
  rewrite Hp. reflexivity.
Qed.

Lemma overflowing_value_drops_query_witness :
  parse_chart_response 0 overflow_payload "web1" "disk_space./" "max" = Err OverflowError
  /\ collect_one overflow_server 0 "web1" "disk_space./" "max"
     = ([], [host_data_request "web1" "disk_space./" "max" NETDATA_URL]).
Proof.
  destruct (overflowing_value_drops_query overflow_server 0
              [("labels", JArr [JStr "time"; JStr "used"; JStr "avail"]);
               ("data", JArr [JArr [JInt 1700000000; JInt (2 ^ 1024); JFloat (PFin 5 0)]])]
              "web1" "disk_space./" "max" (JStr "time") (JStr "used") [JStr "avail"]
              (JInt 1700000000) (2 ^ 1024) [JFloat (PFin 5 0)] [])
    as [H1 H2]; [reflexivity | reflexivity | unfold overflow_bound; lia |].
  split; [exact H1 | apply H2; reflexivity].
Defined.
